(** * SendFileTool: the [send_file] agent tool of nanobot

    A shallow embedding of [nanobot/agent/tools/file_send.py] and the
    properties of its [execute] method.

    The tool touches the outside world in three places: [pathlib] (user
    expansion, canonicalisation, [exists], [is_file]), the delivery
    callback, and the exceptions either may raise.  The file system is a
    record of oracles ([Host]); the callback is a function from the message
    to its outcome; an exception is represented by its [str(e)], the only
    thing the code observes of it.  The two handlers of [execute] are
    [except Exception]: an exception of a class derived from [Exception] is
    caught by them, one that is not ([asyncio.CancelledError],
    [KeyboardInterrupt], [SystemExit]) passes through them and leaves
    [execute]. *)

From Stdlib Require Import String Ascii List Bool Arith Lia DecimalString
  DecimalNat Permutation.
Import ListNotations.
Local Open Scope string_scope.

(** ** Python values *)

(** What a call into a library or a callback does: it returns a value, it
    raises an exception derived from [Exception], with [e] its [str(e)], or
    it raises one that is not, [e] telling which. *)
Inductive outcome (A : Type) : Type :=
| Value (a : A)
| Raises (e : string)
| Unwinds (e : string).
Arguments Value {A} a.
Arguments Raises {A} e.
Arguments Unwinds {A} e.

(** Control flow of a block of statements inside a function that returns a
    string: the block runs to its end with a value, executes [return s],
    raises what [except Exception] catches, or raises what it does not. *)
Inductive flow (A : Type) : Type :=
| Next (a : A)
| Return (s : string)
| Raise (e : string)
| Unwind (e : string).
Arguments Next {A} a.
Arguments Return {A} s.
Arguments Raise {A} e.
Arguments Unwind {A} e.

Definition bind {A B : Type} (c : flow A) (k : A -> flow B) : flow B :=
  match c with
  | Next a => k a
  | Return s => Return s
  | Raise e => Raise e
  | Unwind e => Unwind e
  end.

Definition call {A : Type} (o : outcome A) : flow A :=
  match o with
  | Value a => Next a
  | Raises e => Raise e
  | Unwinds e => Unwind e
  end.

Declare Scope flow_scope.
Delimit Scope flow_scope with flow.
Notation "x <- c ;; k" := (bind c (fun x => k))
  (at level 61, c at next level, right associativity) : flow_scope.
Notation "c ;; k" := (bind c (fun _ => k))
  (at level 61, right associativity) : flow_scope.

(** [if cond: return s] *)
Definition return_if (cond : bool) (s : string) : flow unit :=
  if cond then Return s else Next tt.

(** Truth value of a [str]: only the empty string is falsy. *)
Definition truthy (s : string) : bool :=
  match s with
  | EmptyString => false
  | String _ _ => true
  end.

(** [x or d] for [x : str | None] and [d : str]. *)
Definition py_or (x : option string) (d : string) : string :=
  match x with
  | Some s => if truthy s then s else d
  | None => d
  end.

(** A parameter with a default value: [None] is the argument left out. *)
Definition or_default {A : Type} (supplied : option A) (default : A) : A :=
  match supplied with
  | Some a => a
  | None => default
  end.

(** [s.startswith(p)] *)
Definition startswith (s p : string) : bool := String.prefix p s.

(** [f"{n}"] for a non-negative [int]. *)
Definition str_of_int (n : nat) : string :=
  NilEmpty.string_of_uint (Nat.to_uint n).

(** ** The data model *)

(** Modelled from the spec: [nanobot.bus.events.OutboundMessage], whose
    declaration is not among the sources; section 3 of the specification
    gives it the four fields that line 116 fills. *)
Record OutboundMessage : Type := mkOutboundMessage {
  channel : string;
  chat_id : string;
  content : string;
  files : list string
}.

(** [pathlib] as the tool uses it.  A [Path] is represented by its [str].
    [expanduser] and [resolve] are the methods of that name; [exists] and
    [is_file] are asked of a resolved path. *)
Record Host : Type := mkHost {
  expanduser : string -> outcome string;
  resolve : string -> outcome string;
  exists_ : string -> outcome bool;
  is_file : string -> outcome bool
}.

Definition Callback : Type := OutboundMessage -> outcome unit.

(** The instance attributes set by [__init__]. *)
Record SendFileTool : Type := mkSendFileTool {
  _send_callback : option Callback;
  _default_channel : string;
  _default_chat_id : string;
  _allowed_dir : option string
}.

(** [SendFileTool()] with every argument at its default. *)
Definition init_default : SendFileTool :=
  {| _send_callback := None;
     _default_channel := "";
     _default_chat_id := "";
     _allowed_dir := None |}.

Definition set_context (self : SendFileTool) (channel chat_id : string)
  : SendFileTool :=
  {| _send_callback := _send_callback self;
     _default_channel := channel;
     _default_chat_id := chat_id;
     _allowed_dir := _allowed_dir self |}.

Definition set_send_callback (self : SendFileTool) (callback : Callback)
  : SendFileTool :=
  {| _send_callback := Some callback;
     _default_channel := _default_channel self;
     _default_chat_id := _default_chat_id self;
     _allowed_dir := _allowed_dir self |}.

(** ** The messages of [execute] *)

Definition err_no_target : string := "Error: No target channel/chat specified".
Definition err_not_configured : string := "Error: File sending not configured".
Definition err_no_paths : string := "Error: No file paths provided".

Definition err_outside (file_path_str allowed_dir : string) : string :=
  "Error: File " ++ file_path_str ++ " is outside allowed directory "
    ++ allowed_dir.
Definition err_not_found (file_path_str : string) : string :=
  "Error: File not found: " ++ file_path_str.
Definition err_not_a_file (file_path_str : string) : string :=
  "Error: Not a file: " ++ file_path_str.
Definition err_validating (file_path_str e : string) : string :=
  "Error validating file path " ++ file_path_str ++ ": " ++ e.
Definition err_sending (e : string) : string :=
  "Error sending file(s): " ++ e.

(** [l[0]]: an [IndexError] on the empty list. *)
Definition first (l : list string) : outcome string :=
  match l with
  | x :: _ => Value x
  | [] => Raises "list index out of range"
  end.

(** [files_desc], lines 125-126. *)
Definition files_desc (validated_paths : list string) : outcome string :=
  let file_count := length validated_paths in
  if (1 <? file_count)%nat then Value (str_of_int file_count ++ " file(s)")
  else first validated_paths.

Definition msg_success (files_desc channel chat_id : string) : string :=
  "Successfully sent " ++ files_desc ++ " to " ++ channel ++ ":" ++ chat_id.

(** ** [execute] *)

Section Execute.

Variable host : Host.
Variable self : SendFileTool.

Local Open Scope flow_scope.

(** The body of the [try] block, lines 96-111, for one [file_path_str].
    [Next p] is the string that line 111 appends. *)
Definition try_body (file_path_str : string) : flow string :=
  expanded <- call (expanduser host file_path_str) ;;
  file_path <- call (resolve host expanded) ;;
  match _allowed_dir self with
  | Some allowed_dir =>
      allowed <- call (resolve host allowed_dir) ;;
      return_if (negb (startswith file_path allowed))
                (err_outside file_path_str allowed_dir)
  | None => Next tt
  end ;;
  found <- call (exists_ host file_path) ;;
  return_if (negb found) (err_not_found file_path_str) ;;
  regular <- call (is_file host file_path) ;;
  return_if (negb regular) (err_not_a_file file_path_str) ;;
  Next file_path.

(** The [try] statement, lines 95-114: [except Exception as e] turns a
    raise into a [return]; what is not an [Exception] goes on. *)
Definition validate_one (file_path_str : string) : flow string :=
  match try_body file_path_str with
  | Raise e => Return (err_validating file_path_str e)
  | r => r
  end.

(** The [for] loop, lines 94-114, started with [validated_paths]. *)
Fixpoint validate (file_paths validated_paths : list string)
  : flow (list string) :=
  match file_paths with
  | [] => Next validated_paths
  | file_path_str :: rest =>
      p <- validate_one file_path_str ;;
      validate rest (validated_paths ++ [p])
  end.

(** What one run of [execute] does: how the call ends ([Value s] when it
    returns the string [s], [Raises e] or [Unwinds e] when an exception
    leaves it) and the
    messages it passed to the delivery callback, in order.  The message is
    built on line 116 and passed on line 124 with nothing in between, so
    [delivered] also lists the messages that were constructed. *)
Record Run : Type := mkRun {
  returned : outcome string;
  delivered : list OutboundMessage
}.

Definition returns (s : string) (sent : list OutboundMessage) : Run :=
  mkRun (Value s) sent.

(** Lines 116-129: the message is built and handed to the callback; the
    [try] covers the call and the formatting of the success string, and its
    handler is [except Exception]. *)
Definition dispatch (send_callback : Callback)
    (channel chat_id caption : string) (validated_paths : list string)
  : Run :=
  let msg := {| channel := channel;
                chat_id := chat_id;
                content := caption;
                files := validated_paths |} in
  match send_callback msg with
  | Value _ =>
      match files_desc validated_paths with
      | Value desc => returns (msg_success desc channel chat_id) [msg]
      | Raises e => returns (err_sending e) [msg]
      | Unwinds e => mkRun (Unwinds e) [msg]
      end
  | Raises e => returns (err_sending e) [msg]
  | Unwinds e => mkRun (Unwinds e) [msg]
  end.

Definition execute (file_paths : list string) (caption : option string)
    (channel chat_id : option string) : Run :=
  let caption := or_default caption "" in
  let channel := py_or channel (_default_channel self) in
  let chat_id := py_or chat_id (_default_chat_id self) in
  if negb (truthy channel) || negb (truthy chat_id) then
    returns err_no_target []
  else
    match _send_callback self with
    | None => returns err_not_configured []
    | Some send_callback =>
        match file_paths with
        | [] => returns err_no_paths []
        | _ :: _ =>
            match validate file_paths [] with
            | Return s => returns s []
            | Raise e => mkRun (Raises e) []
            | Unwind e => mkRun (Unwinds e) []
            | Next validated_paths =>
                dispatch send_callback channel chat_id caption validated_paths
            end
        end
    end.

End Execute.

(** ** Vocabulary of the properties *)

Section Vocabulary.

Variable host : Host.
Variable self : SendFileTool.

(** [file_path_str] canonicalises to [p] without error. *)
Definition canonical (file_path_str p : string) : Prop :=
  exists expanded,
    expanduser host file_path_str = Value expanded /\
    resolve host expanded = Value p.

(** The containment check of lines 99-102 lets the canonical path [p]
    through: no directory is configured, or the configured one resolves and
    its string is a prefix of [p]. *)
Definition contained (p : string) : Prop :=
  match _allowed_dir self with
  | Some allowed_dir =>
      exists allowed,
        resolve host allowed_dir = Value allowed /\
        startswith p allowed = true
  | None => True
  end.

(** [file_path_str] passes every check of the loop body, and [p] is what
    is appended for it. *)
Definition passes (file_path_str p : string) : Prop :=
  canonical file_path_str p /\
  contained p /\
  exists_ host p = Value true /\
  is_file host p = Value true.


(** The routing pair line 80-81 compute. *)
Definition target (channel chat_id : option string) : string * string :=
  (py_or channel (_default_channel self),
   py_or chat_id (_default_chat_id self)).

Definition has_target (channel chat_id : option string) : Prop :=
  truthy (fst (target channel chat_id)) = true /\
  truthy (snd (target channel chat_id)) = true.

End Vocabulary.

(** An optional string argument that is left out, [None] or empty. *)
Definition blank (x : option string) : Prop := x = None \/ x = Some "".


(** The three kinds of result string, told apart by how they begin. *)
Definition is_success (s : string) : bool :=
  startswith s "Successfully sent ".

(** ** A concrete host

    A file tree without symbolic links, given by the list of its entries;
    the working directory is the root.  On such a tree [Path.resolve] is the
    lexical normalisation of the path.  It is the host the examples run on;
    the theorems are about every [Host]. *)

Module Posix.

Inductive kind : Type := RegularFile | Directory.

Definition tree : Type := list (string * kind).

(** [s.split("/")] *)
Fixpoint split_slash (s : string) : list string :=
  match s with
  | EmptyString => [""]
  | String c s' =>
      if Ascii.eqb c "/" then "" :: split_slash s'
      else match split_slash s' with
           | part :: parts => String c part :: parts
           | [] => [String c ""]
           end
  end.

(** One path component applied to the components walked so far, the
    innermost first. *)
Definition walk (seen : list string) (part : string) : list string :=
  if (part =? "") || (part =? ".") then seen
  else if part =? ".." then tl seen
  else part :: seen.

Definition normalize (s : string) : string :=
  "/" ++ String.concat "/" (rev (fold_left walk (split_slash s) [])).

Definition lookup (fs : tree) (p : string) : option kind :=
  option_map snd (find (fun entry => fst entry =? p) fs).

Definition expand (home s : string) : string :=
  match s with
  | String "~" EmptyString => home
  | String "~" (String "/" rest) => home ++ "/" ++ rest
  | _ => s
  end.

Definition host (home : string) (fs : tree) : Host :=
  {| expanduser := fun s => Value (expand home s);
     resolve := fun s => Value (normalize s);
     exists_ := fun p => Value (match lookup fs p with
                                | Some _ => true
                                | None => false
                                end);
     is_file := fun p => Value (match lookup fs p with
                                | Some RegularFile => true
                                | _ => false
                                end) |}.

End Posix.

(** A delivery callback that accepts every message, and one that fails. *)
Definition accept : Callback := fun _ => Value tt.
Definition refuse (e : string) : Callback := fun _ => Raises e.

Module Bot.

Definition fs : Posix.tree :=
  [ ("/home", Posix.Directory);
    ("/home/bot", Posix.Directory);
    ("/home/bot/files", Posix.Directory);
    ("/home/bot/files/a.png", Posix.RegularFile);
    ("/home/bot/files/b.pdf", Posix.RegularFile);
    ("/home/bot/secret.txt", Posix.RegularFile);
    ("/home/bot/files-private", Posix.Directory);
    ("/home/bot/files-private/key.pem", Posix.RegularFile) ].

Definition h : Host := Posix.host "/home/bot" fs.

(** [SendFileTool(accept, "telegram", "123", Path("/home/bot/files"))] *)
Definition tool : SendFileTool :=
  {| _send_callback := Some accept;
     _default_channel := "telegram";
     _default_chat_id := "123";
     _allowed_dir := Some "/home/bot/files" |}.

(** [SendFileTool(accept, "telegram", "123")] *)
Definition open_tool : SendFileTool :=
  {| _send_callback := Some accept;
     _default_channel := "telegram";
     _default_chat_id := "123";
     _allowed_dir := None |}.

End Bot.

(** ** The constructor and further vocabulary *)

(** [SendFileTool(send_callback, default_channel, default_chat_id,
    allowed_dir)], lines 13-23; [None] for [default_channel] or
    [default_chat_id] is the argument left out. *)
Definition __init__ (send_callback : option Callback)
    (default_channel default_chat_id : option string)
    (allowed_dir : option string) : SendFileTool :=
  {| _send_callback := send_callback;
     _default_channel := or_default default_channel "";
     _default_chat_id := or_default default_chat_id "";
     _allowed_dir := allowed_dir |}.

Section Faults.

Variable host : Host.
Variable self : SendFileTool.

(** One of the [pathlib] calls that the loop body makes for
    [file_path_str] raises, and [e] is the text of the exception: the
    expansion, the canonicalisation of the path, the canonicalisation of the
    allowed directory, [exists], or [is_file]; each call is reached only when
    the checks before it let the path through. *)
Definition check_raises (file_path_str e : string) : Prop :=
  expanduser host file_path_str = Raises e
  \/ (exists expanded,
        expanduser host file_path_str = Value expanded
        /\ resolve host expanded = Raises e)
  \/ (exists p,
        canonical host file_path_str p
        /\ ((exists allowed_dir,
                _allowed_dir self = Some allowed_dir
                /\ resolve host allowed_dir = Raises e)
            \/ (contained host self p /\ exists_ host p = Raises e)
            \/ (contained host self p
                /\ exists_ host p = Value true
                /\ is_file host p = Raises e))).

End Faults.

(** A callback whose outcome does not depend on the caption. *)
Definition ignores_content (send_callback : Callback) : Prop :=
  forall channel chat_id text text' files,
    send_callback {| channel := channel; chat_id := chat_id;
                     content := text; files := files |}
    = send_callback {| channel := channel; chat_id := chat_id;
                       content := text'; files := files |}.




Module Variants.

(** The host of [Bot] on which no home directory can be determined for any
    string but the two listed. *)
Definition homeless : Host :=
  {| expanduser := fun s =>
       if (s =? "~/files/a.png") || (s =? "/home/bot/files/b.pdf")
       then expanduser Bot.h s
       else Raises "Could not determine home directory.";
     resolve := resolve Bot.h;
     exists_ := exists_ Bot.h;
     is_file := is_file Bot.h |}.

(** The host of [Bot] on which nothing can be canonicalised. *)
Definition looping : Host :=
  {| expanduser := expanduser Bot.h;
     resolve := fun s => Raises ("Symlink loop from " ++ s);
     exists_ := exists_ Bot.h;
     is_file := is_file Bot.h |}.

(** The host of [Bot] on which the allowed directory itself cannot be
    canonicalised. *)
Definition unmounted : Host :=
  {| expanduser := expanduser Bot.h;
     resolve := fun s =>
       if s =? "/home/bot/files" then Raises "Input/output error"
       else resolve Bot.h s;
     exists_ := exists_ Bot.h;
     is_file := is_file Bot.h |}.

(** [SendFileTool(accept, "telegram", "123", Path("~/files"))] *)
Definition tilde_tool : SendFileTool :=
  __init__ (Some accept) (Some "telegram") (Some "123") (Some "~/files").

End Variants.

(** * Properties *)

(** ** Runs on the concrete host *)

Example normalize_dotdot :
  Posix.normalize "/home/bot/files/../secret.txt" = "/home/bot/secret.txt".
Proof. reflexivity. Qed.

Example send_one :
  execute Bot.h Bot.tool ["~/files/./a.png"] (Some "look") None None
  = returns "Successfully sent /home/bot/files/a.png to telegram:123"
      [ {| channel := "telegram"; chat_id := "123"; content := "look";
           files := ["/home/bot/files/a.png"] |} ].
Proof. reflexivity. Qed.

Example send_two :
  execute Bot.h Bot.tool ["/home/bot/files/b.pdf"; "/home/bot/files/a.png"]
    None (Some "discord") None
  = returns "Successfully sent 2 file(s) to discord:123"
      [ {| channel := "discord"; chat_id := "123"; content := "";
           files := ["/home/bot/files/b.pdf"; "/home/bot/files/a.png"] |} ].
Proof. reflexivity. Qed.

Example send_escaping :
  execute Bot.h Bot.tool ["/home/bot/files/../secret.txt"] None None None
  = returns "Error: File /home/bot/files/../secret.txt is outside allowed directory /home/bot/files" [].
Proof. reflexivity. Qed.

Example send_sibling :
  execute Bot.h Bot.tool ["/home/bot/files-private/key.pem"] None None None
  = returns "Successfully sent /home/bot/files-private/key.pem to telegram:123"
      [ {| channel := "telegram"; chat_id := "123"; content := "";
           files := ["/home/bot/files-private/key.pem"] |} ].
Proof. reflexivity. Qed.

Example send_directory_then_missing :
  execute Bot.h Bot.open_tool ["/home/bot"; "/home/bot/nope"] None None None
  = returns "Error: Not a file: /home/bot" [].
Proof. reflexivity. Qed.

Example send_refused :
  execute Bot.h (set_send_callback Bot.tool (refuse "timeout"))
    ["/home/bot/files/a.png"] None None None
  = returns "Error sending file(s): timeout"
      [ {| channel := "telegram"; chat_id := "123"; content := "";
           files := ["/home/bot/files/a.png"] |} ].
Proof. reflexivity. Qed.

(** ** Control flow *)

Lemma Return_inj {A : Type} (s t : string) : @Return A s = Return t -> s = t.
Proof. congruence. Qed.

(** ** Lists *)

Lemma Forall2_In_l {A B : Type} (R : A -> B -> Prop) l l' a :
  Forall2 R l l' -> In a l -> exists b, In b l' /\ R a b.
Proof.
  induction 1 as [|x y l l' Hxy _ IH]; cbn; [tauto|].
  intros [<-|Hin].
  - exists y. auto.
  - destruct (IH Hin) as [b [Hb Hab]]. exists b. auto.
Qed.

(** ** The loop body *)

Section Loop.

Variable host : Host.
Variable self : SendFileTool.

(** Runs the loop body on whatever the host answers. *)
Ltac run_body :=
  unfold validate_one, try_body, bind, call, return_if;
  repeat (cbn;
          match goal with
          | |- context [expanduser host ?x] =>
              destruct (expanduser host x) eqn:?
          | |- context [resolve host ?x] => destruct (resolve host x) eqn:?
          | |- context [_allowed_dir self] => destruct (_allowed_dir self) eqn:?
          | |- context [exists_ host ?x] => destruct (exists_ host x) eqn:?
          | |- context [is_file host ?x] => destruct (is_file host x) eqn:?
          | |- context [negb (startswith ?x ?y)] =>
              destruct (startswith x y) eqn:?
          | |- context [negb ?b] => destruct b
          end);
  cbn.

Lemma validate_one_never_raises file_path_str e :
  validate_one host self file_path_str <> Raise e.
Proof. run_body; discriminate. Qed.

Lemma passes_validate_one file_path_str p :
  passes host self file_path_str p ->
  validate_one host self file_path_str = Next p.
Proof.
  intros [[expanded [He Hr]] [Hc [Hx Hf]]].
  unfold validate_one, try_body, bind, call, return_if.
  rewrite He, Hr. unfold contained in Hc.
  destruct (_allowed_dir self) as [d|].
  - destruct Hc as [a [Ha Hp]]. rewrite Ha, Hp. cbn.
    rewrite Hx. cbn. rewrite Hf. reflexivity.
  - rewrite Hx. cbn. rewrite Hf. reflexivity.
Qed.

Lemma validate_one_passes file_path_str p :
  validate_one host self file_path_str = Next p ->
  passes host self file_path_str p.
Proof.
  run_body; try discriminate; intros [= <-];
    unfold passes, canonical, contained;
    repeat match goal with H : _allowed_dir self = _ |- _ => rewrite H end;
    repeat split; eauto.
Qed.

(** The six ways the loop body ends. *)
Lemma validate_one_cases file_path_str :
  (exists p, validate_one host self file_path_str = Next p)
  \/ (exists allowed_dir,
        _allowed_dir self = Some allowed_dir
        /\ validate_one host self file_path_str
           = Return (err_outside file_path_str allowed_dir))
  \/ validate_one host self file_path_str
     = Return (err_not_found file_path_str)
  \/ validate_one host self file_path_str
     = Return (err_not_a_file file_path_str)
  \/ (exists e, validate_one host self file_path_str
                = Return (err_validating file_path_str e))
  \/ (exists e, validate_one host self file_path_str = Unwind e).
Proof. run_body; eauto 12. Qed.

Lemma validate_one_Next file_path_str p :
  validate_one host self file_path_str = Next p
  <-> passes host self file_path_str p.
Proof.
  split; [apply validate_one_passes | apply passes_validate_one].
Qed.

(** A canonical path outside the allowed directory is answered before the
    file system is asked about it. *)
Lemma outside_is_rejected d a s p :
  _allowed_dir self = Some d ->
  resolve host d = Value a ->
  canonical host s p ->
  startswith p a = false ->
  validate_one host self s = Return (err_outside s d).
Proof.
  intros Hd Ha [e [He Hr]] Hs.
  unfold validate_one, try_body, bind, call, return_if.
  now rewrite He, Hr, Hd, Ha, Hs.
Qed.

(** A path passes with at most one canonical form. *)
Lemma passes_functional file_path_str p q :
  passes host self file_path_str p ->
  passes host self file_path_str q -> p = q.
Proof.
  intros Hp Hq.
  apply passes_validate_one in Hp. apply passes_validate_one in Hq.
  congruence.
Qed.


(** ** The loop *)

Lemma validate_never_raises file_paths : forall validated_paths e,
  validate host self file_paths validated_paths <> Raise e.
Proof.
  induction file_paths as [|s rest IH]; intros acc e; cbn.
  - discriminate.
  - destruct (validate_one host self s) as [p| |e'|e'] eqn:H1; cbn.
    + apply IH.
    + discriminate.
    + exfalso. exact (validate_one_never_raises _ _ H1).
    + discriminate.
Qed.

Lemma validate_all_pass file_paths : forall validated_paths ps,
  Forall2 (passes host self) file_paths ps ->
  validate host self file_paths validated_paths = Next (validated_paths ++ ps)%list.
Proof.
  induction file_paths as [|s rest IH]; intros acc ps H; inversion H; subst; cbn.
  - now rewrite app_nil_r.
  - rewrite (passes_validate_one _ _ H2). cbn.
    rewrite (IH _ _ H4), <- app_assoc. reflexivity.
Qed.

Lemma validate_Next_inv file_paths : forall validated_paths out,
  validate host self file_paths validated_paths = Next out ->
  exists ps, out = (validated_paths ++ ps)%list
             /\ Forall2 (passes host self) file_paths ps.
Proof.
  induction file_paths as [|s rest IH]; intros acc out; cbn.
  - intros [= <-]. exists []. now rewrite app_nil_r.
  - destruct (validate_one host self s) as [p| | |] eqn:H1; cbn;
      try discriminate.
    intros H. destruct (IH _ _ H) as [ps [-> Hps]].
    exists (p :: ps). rewrite <- app_assoc. split; [reflexivity|].
    constructor; [now apply validate_one_passes | assumption].
Qed.

(** The first path that does not pass decides the result of the loop. *)
Lemma validate_first_failure before : forall validated_paths ps s rest msg,
  Forall2 (passes host self) before ps ->
  validate_one host self s = Return msg ->
  validate host self (before ++ s :: rest) validated_paths = Return msg.
Proof.
  induction before as [|b before IH]; intros acc ps s rest msg H Hs;
    inversion H; subst; cbn.
  - now rewrite Hs.
  - rewrite (passes_validate_one _ _ H2). cbn. eapply IH; eassumption.
Qed.

Lemma validate_Return_inv file_paths : forall validated_paths msg,
  validate host self file_paths validated_paths = Return msg ->
  exists before ps s rest,
    file_paths = (before ++ s :: rest)%list
    /\ Forall2 (passes host self) before ps
    /\ validate_one host self s = Return msg.
Proof.
  induction file_paths as [|s rest IH]; intros acc msg; cbn; [discriminate|].
  destruct (validate_one host self s) as [p| m | |] eqn:H1; cbn;
    try discriminate.
  - intros H. destruct (IH _ _ H) as [before [ps [s' [rest' [-> [Hps Hs']]]]]].
    exists (s :: before), (p :: ps), s', rest'. repeat split; auto.
    constructor; [now apply validate_one_passes | assumption].
  - intros [= <-]. exists [], [], s, rest. repeat split; auto.
Qed.

(** The same for an exception that the handler of line 113 lets through. *)
Lemma validate_first_unwind before : forall validated_paths ps s rest e,
  Forall2 (passes host self) before ps ->
  validate_one host self s = Unwind e ->
  validate host self (before ++ s :: rest) validated_paths = Unwind e.
Proof.
  induction before as [|b before IH]; intros acc ps s rest e H Hs;
    inversion H; subst; cbn.
  - now rewrite Hs.
  - rewrite (passes_validate_one _ _ H2). cbn. eapply IH; eassumption.
Qed.


(** A path that does not pass ends the loop. *)
Lemma validate_some_failure file_paths validated_paths s :
  In s file_paths ->
  (forall p, ~ passes host self s p) ->
  (exists msg, validate host self file_paths validated_paths = Return msg)
  \/ (exists e, validate host self file_paths validated_paths = Unwind e).
Proof.
  intros Hin Hs.
  destruct (validate host self file_paths validated_paths)
    as [out|msg|e|e] eqn:H.
  - destruct (validate_Next_inv _ _ _ H) as [ps [_ Hps]].
    destruct (Forall2_In_l _ _ _ _ Hps Hin) as [p [_ Hp]].
    exfalso. exact (Hs p Hp).
  - eauto.
  - exfalso. exact (validate_never_raises _ _ _ H).
  - eauto.
Qed.

End Loop.

(** The loop reads [self] only through [_allowed_dir]. *)
Lemma validate_one_allowed_dir host self self' s :
  _allowed_dir self = _allowed_dir self' ->
  validate_one host self s = validate_one host self' s.
Proof.
  intros H. unfold validate_one, try_body. now rewrite H.
Qed.

Lemma validate_allowed_dir host self self' file_paths :
  _allowed_dir self = _allowed_dir self' ->
  forall validated_paths,
    validate host self file_paths validated_paths
    = validate host self' file_paths validated_paths.
Proof.
  intros H. induction file_paths as [|s rest IH]; intros acc; cbn.
  - reflexivity.
  - rewrite (validate_one_allowed_dir host self self' s H).
    destruct (validate_one host self' s); cbn; auto.
Qed.

(** ** Strings *)

Lemma startswith_empty s : startswith s "" = true.
Proof. now destruct s. Qed.

Lemma startswith_append p s : startswith (p ++ s) p = true.
Proof.
  unfold startswith. induction p as [|c p IH]; cbn.
  - apply (startswith_empty s).
  - destruct (ascii_dec c c); [exact IH | congruence].
Qed.

(** A path below a directory has the directory's string as a prefix, so
    it passes the test of line 101. *)
Lemma below_directory_startswith directory rest :
  startswith (directory ++ "/" ++ rest) directory = true.
Proof. apply startswith_append. Qed.

Lemma msg_success_is_success desc channel chat_id :
  is_success (msg_success desc channel chat_id) = true.
Proof. apply startswith_append. Qed.




Lemma append_assoc s t u : (s ++ t) ++ u = s ++ t ++ u.
Proof. induction s as [|c s IH]; cbn; [reflexivity | now rewrite IH]. Qed.

Lemma length_append s t : String.length (s ++ t) = String.length s + String.length t.
Proof. induction s as [|c s IH]; cbn; [reflexivity | now rewrite IH]. Qed.

Lemma truthy_py_or_blank x d : blank x -> py_or x d = d.
Proof. now intros [-> | ->]. Qed.

Lemma py_or_supplied s d : s <> "" -> py_or (Some s) d = s.
Proof. destruct s; cbn; congruence. Qed.

(** The error strings of the loop body are told apart by their length or
    by their sixth character. *)
Lemma err_outside_not_found s d : err_outside s d <> err_not_found s.
Proof.
  intros H. apply (f_equal String.length) in H.
  unfold err_outside, err_not_found in H.
  repeat rewrite length_append in H. cbn in H. lia.
Qed.

Lemma err_outside_not_a_file s d : err_outside s d <> err_not_a_file s.
Proof.
  intros H. apply (f_equal String.length) in H.
  unfold err_outside, err_not_a_file in H.
  repeat rewrite length_append in H. cbn in H. lia.
Qed.

Lemma err_validating_not_outside s e t d : err_validating s e <> err_outside t d.
Proof. discriminate. Qed.

Lemma err_validating_not_found s e t : err_validating s e <> err_not_found t.
Proof. discriminate. Qed.

Lemma err_validating_not_a_file s e t : err_validating s e <> err_not_a_file t.
Proof. discriminate. Qed.

Lemma err_not_found_not_a_file s t : err_not_found s <> err_not_a_file t.
Proof. discriminate. Qed.

Lemma files_desc_nonempty p ps : exists desc, files_desc (p :: ps) = Value desc.
Proof. unfold files_desc. destruct (1 <? _)%nat; cbn; eauto. Qed.

Lemma files_desc_one p : files_desc [p] = Value p.
Proof. reflexivity. Qed.

Lemma files_desc_many ps :
  1 < length ps ->
  files_desc ps = Value (str_of_int (length ps) ++ " file(s)").
Proof.
  intros H. unfold files_desc.
  now rewrite (proj2 (Nat.ltb_lt _ _) H).
Qed.

(** ** [execute], step by step *)

Section Steps.

Variable host : Host.
Variable self : SendFileTool.

Lemma execute_no_target file_paths caption channel chat_id :
  ~ has_target self channel chat_id ->
  execute host self file_paths caption channel chat_id
  = returns err_no_target [].
Proof.
  unfold has_target, target, execute. cbn. intros H.
  destruct (truthy (py_or channel _)); cbn; [|reflexivity].
  destruct (truthy (py_or chat_id _)); cbn; [|reflexivity].
  exfalso. auto.
Qed.

Lemma execute_not_configured file_paths caption channel chat_id :
  has_target self channel chat_id ->
  _send_callback self = None ->
  execute host self file_paths caption channel chat_id
  = returns err_not_configured [].
Proof.
  unfold has_target, target, execute. cbn. intros [-> ->] ->. reflexivity.
Qed.

(** Past the three guards, [execute] is the loop followed by [dispatch]. *)
Lemma execute_ready file_paths caption channel chat_id send_callback :
  has_target self channel chat_id ->
  _send_callback self = Some send_callback ->
  file_paths <> [] ->
  execute host self file_paths caption channel chat_id
  = match validate host self file_paths [] with
    | Next validated_paths =>
        dispatch send_callback
          (fst (target self channel chat_id))
          (snd (target self channel chat_id))
          (or_default caption "") validated_paths
    | Return s => returns s []
    | Raise e => mkRun (Raises e) []
    | Unwind e => mkRun (Unwinds e) []
    end.
Proof.
  unfold has_target, target, execute. cbn. intros [-> ->] -> H.
  destruct file_paths; [congruence | reflexivity].
Qed.

Lemma execute_first_failure before ps s rest msg caption channel chat_id
    send_callback :
  has_target self channel chat_id ->
  _send_callback self = Some send_callback ->
  Forall2 (passes host self) before ps ->
  validate_one host self s = Return msg ->
  execute host self (before ++ s :: rest) caption channel chat_id
  = returns msg [].
Proof.
  intros Ht Hc Hb Hs.
  rewrite (execute_ready _ _ _ _ _ Ht Hc) by (now destruct before).
  now rewrite (validate_first_failure _ _ _ [] _ _ rest _ Hb Hs).
Qed.

Lemma dispatch_delivered send_callback channel chat_id caption ps :
  delivered (dispatch send_callback channel chat_id caption ps)
  = [ {| channel := channel; chat_id := chat_id; content := caption;
         files := ps |} ].
Proof.
  unfold dispatch.
  destruct (send_callback _); [destruct (files_desc ps)| |]; reflexivity.
Qed.

(** What a run that delivered something looked like. *)
Lemma execute_delivered_inv file_paths caption req_channel req_chat_id msg :
  In msg (delivered
            (execute host self file_paths caption req_channel req_chat_id)) ->
  exists send_callback,
    has_target self req_channel req_chat_id
    /\ _send_callback self = Some send_callback
    /\ file_paths <> []
    /\ Forall2 (passes host self) file_paths (files msg)
    /\ msg = {| channel := fst (target self req_channel req_chat_id);
                chat_id := snd (target self req_channel req_chat_id);
                content := or_default caption "";
                files := files msg |}
    /\ execute host self file_paths caption req_channel req_chat_id
       = dispatch send_callback (channel msg) (chat_id msg) (content msg)
           (files msg).
Proof.
  unfold has_target, target, execute. cbn.
  destruct (truthy (py_or req_channel _)); cbn; [|tauto].
  destruct (truthy (py_or req_chat_id _)); cbn; [|tauto].
  destruct (_send_callback self) as [cb|]; cbn; [|tauto].
  destruct file_paths as [|s rest]; cbn [delivered returns In]; [tauto|].
  destruct (validate host self (s :: rest) []) as [out| | |] eqn:Hv;
    cbn [delivered returns In]; try tauto.
  rewrite dispatch_delivered. intros [<-|[]]. cbn.
  destruct (validate_Next_inv _ _ _ _ _ Hv) as [ps [-> Hps]].
  exists cb. repeat split; auto. discriminate.
Qed.



Lemma delivered_from_valid_batch
    file_paths caption req_channel req_chat_id msg :
  In msg (delivered
            (execute host self file_paths caption req_channel req_chat_id)) ->
  file_paths <> []
  /\ files msg <> []
  /\ Forall2 (passes host self) file_paths (files msg)
  /\ delivered (execute host self file_paths caption req_channel req_chat_id)
     = [msg].
Proof.
  intros Hin.
  destruct (execute_delivered_inv _ _ _ _ _ Hin)
    as [cb [_ [_ [Hne [Hps [_ Hrun]]]]]].
  repeat split; auto.
  - intros Hnil. rewrite Hnil in Hps. inversion Hps. congruence.
  - rewrite Hrun, dispatch_delivered. now destruct msg.
Qed.

Lemma failing_path_delivers_nothing
    file_paths caption req_channel req_chat_id s :
  In s file_paths ->
  (forall p, ~ passes host self s p) ->
  delivered (execute host self file_paths caption req_channel req_chat_id)
  = [].
Proof.
  intros Hin Hs.
  destruct (delivered
              (execute host self file_paths caption req_channel req_chat_id))
    as [|msg l] eqn:Hd; [reflexivity|].
  exfalso.
  assert (Hmsg : In msg (delivered
            (execute host self file_paths caption req_channel req_chat_id)))
    by (rewrite Hd; now left).
  destruct (delivered_from_valid_batch _ _ _ _ _ Hmsg) as [_ [_ [Hps _]]].
  destruct (Forall2_In_l _ _ _ _ Hps Hin) as [p [_ Hp]].
  exact (Hs p Hp).
Qed.

End Steps.

(** ** The delivery of a valid batch *)

(** C1. A non-empty list of paths that each canonicalise, exist, are
    regular files and pass the containment check, sent with a routing pair
    that resolves to two non-empty strings through a callback that returns:
    [execute] returns the success string and the callback is called exactly
    once, with the resolved channel and chat id, the caption as passed (the
    empty string when it is left out) and the canonical paths in the order
    of the input. *)
Theorem C1_valid_batch_delivered_once
    host self file_paths caption req_channel req_chat_id send_callback ps :
  file_paths <> [] ->
  Forall2 (passes host self) file_paths ps ->
  has_target self req_channel req_chat_id ->
  _send_callback self = Some send_callback ->
  send_callback
    {| channel := py_or req_channel (_default_channel self);
       chat_id := py_or req_chat_id (_default_chat_id self);
       content := match caption with Some text => text | None => "" end;
       files := ps |} = Value tt ->
  exists desc,
    is_success
      (msg_success desc (py_or req_channel (_default_channel self))
         (py_or req_chat_id (_default_chat_id self))) = true
    /\ execute host self file_paths caption req_channel req_chat_id
       = returns
           (msg_success desc (py_or req_channel (_default_channel self))
              (py_or req_chat_id (_default_chat_id self)))
           [ {| channel := py_or req_channel (_default_channel self);
                chat_id := py_or req_chat_id (_default_chat_id self);
                content :=
                  match caption with Some text => text | None => "" end;
                files := ps |} ].
Proof.
  intros Hne Hps Ht Hcb Hsend.
  rewrite (execute_ready _ _ _ _ _ _ _ Ht Hcb Hne).
  rewrite (validate_all_pass _ _ _ [] _ Hps). cbn [app].
  unfold dispatch, target, or_default. cbn [fst snd]. rewrite Hsend.
  destruct ps as [|p ps].
  - inversion Hps. congruence.
  - destruct (files_desc_nonempty p ps) as [desc Hd]. rewrite Hd.
    exists desc. split; [apply msg_success_is_success | reflexivity].
Qed.

Lemma C1_witness :
  exists desc,
    is_success (msg_success desc "discord" "123") = true
    /\ execute Bot.h Bot.tool ["~/files/./a.png"; "/home/bot/files/b.pdf"]
         None (Some "discord") None
       = returns (msg_success desc "discord" "123")
           [ {| channel := "discord"; chat_id := "123"; content := "";
                files := ["/home/bot/files/a.png"; "/home/bot/files/b.pdf"] |} ].
Proof.
  apply (C1_valid_batch_delivered_once Bot.h Bot.tool
           ["~/files/./a.png"; "/home/bot/files/b.pdf"]
           None (Some "discord") None accept
           ["/home/bot/files/a.png"; "/home/bot/files/b.pdf"]).
  - discriminate.
  - repeat constructor; try (eexists; split; reflexivity).
  - split; reflexivity.
  - reflexivity.
  - reflexivity.
Defined.

(** ** All or nothing *)

(** C3. A message reaches the callback (and is built at all) only from a
    non-empty list every path of which passed canonicalisation, containment,
    existence and the regular-file check, and then it is the only message
    and carries exactly those paths; a batch with one path that fails a check
    delivers nothing. *)
Theorem C3_all_or_nothing
    host self file_paths caption req_channel req_chat_id :
  (forall msg,
      In msg (delivered
                (execute host self file_paths caption req_channel req_chat_id)) ->
      file_paths <> []
      /\ files msg <> []
      /\ Forall2 (passes host self) file_paths (files msg)
      /\ delivered
           (execute host self file_paths caption req_channel req_chat_id)
         = [msg])
  /\ ((exists s, In s file_paths /\ forall p, ~ passes host self s p) ->
      delivered (execute host self file_paths caption req_channel req_chat_id)
      = []).
Proof.
  split.
  - intros msg. apply delivered_from_valid_batch.
  - intros [s [Hin Hs]]. now apply failing_path_delivers_nothing with s.
Qed.

Lemma C3_witness :
  (["/home/bot/files/a.png"] <> []
   /\ ["/home/bot/files/a.png"] <> []
   /\ Forall2 (passes Bot.h Bot.tool)
        ["/home/bot/files/a.png"] ["/home/bot/files/a.png"]
   /\ delivered
        (execute Bot.h Bot.tool ["/home/bot/files/a.png"] None None None)
      = [ {| channel := "telegram"; chat_id := "123"; content := "";
             files := ["/home/bot/files/a.png"] |} ])
  /\ delivered
       (execute Bot.h Bot.tool
          ["/home/bot/files/a.png"; "/home/bot/secret.txt"] None None None)
     = [].
Proof.
  split.
  - apply (proj1 (C3_all_or_nothing Bot.h Bot.tool
                    ["/home/bot/files/a.png"] None None None)
             {| channel := "telegram"; chat_id := "123"; content := "";
                files := ["/home/bot/files/a.png"] |}).
    cbn. left. reflexivity.
  - apply (proj2 (C3_all_or_nothing Bot.h Bot.tool
                    ["/home/bot/files/a.png"; "/home/bot/secret.txt"]
                    None None None)).
    exists "/home/bot/secret.txt". split.
    + cbn. right. left. reflexivity.
    + intros p [[e [He Hr]] [[a [Ha Hs]] _]]. cbn in He, Hr, Ha.
      injection He as <-. injection Hr as <-. injection Ha as <-.
      discriminate Hs.
Defined.

(** ** The guards *)

(** C4. When the request names no channel and none is stored, or names no
    chat id and none is stored, [execute] returns the missing-target error
    whatever the paths are, and delivers nothing; that string is none of the
    path errors and not a success string. *)
Theorem C4_missing_target
    host self file_paths caption req_channel req_chat_id :
  (blank req_channel /\ _default_channel self = "")
  \/ (blank req_chat_id /\ _default_chat_id self = "") ->
  execute host self file_paths caption req_channel req_chat_id
  = returns err_no_target []
  /\ is_success err_no_target = false
  /\ (forall s d e,
         err_no_target <> err_outside s d
         /\ err_no_target <> err_not_found s
         /\ err_no_target <> err_not_a_file s
         /\ err_no_target <> err_validating s e).
Proof.
  intros H. split; [|split; [reflexivity | repeat split; discriminate]].
  apply execute_no_target. unfold has_target, target. cbn.
  destruct H as [[Hb Hd]|[Hb Hd]];
    rewrite (truthy_py_or_blank _ _ Hb), Hd; cbn; intros [? ?]; discriminate.
Qed.

Lemma C4_witness :
  execute Bot.h init_default ["/home/bot/files/a.png"] None (Some "") None
  = returns err_no_target []
  /\ is_success err_no_target = false
  /\ (forall s d e,
         err_no_target <> err_outside s d
         /\ err_no_target <> err_not_found s
         /\ err_no_target <> err_not_a_file s
         /\ err_no_target <> err_validating s e).
Proof.
  apply (C4_missing_target Bot.h init_default ["/home/bot/files/a.png"]
           None (Some "") None).
  left. split; [right; reflexivity | reflexivity].
Defined.

(** C5, as the code has it. Without a delivery callback, [execute] returns
    the not-configured error when the routing pair resolves to two non-empty
    strings, whatever the paths and the caption are; when the channel or the
    chat id resolves to the empty string it returns the missing-target error
    instead.  Nothing is delivered either way. *)
Theorem C5_not_configured
    host self file_paths caption req_channel req_chat_id :
  _send_callback self = None ->
  (has_target self req_channel req_chat_id ->
   execute host self file_paths caption req_channel req_chat_id
   = returns err_not_configured [])
  /\ (~ has_target self req_channel req_chat_id ->
      execute host self file_paths caption req_channel req_chat_id
      = returns err_no_target []).
Proof.
  intros Hcb. split.
  - intros Ht. now apply execute_not_configured.
  - apply execute_no_target.
Qed.

Lemma C5_witness :
  execute Bot.h (set_context init_default "telegram" "123")
    ["/home/bot/files/a.png"] None None None
  = returns err_not_configured [].
Proof.
  apply (proj1 (C5_not_configured Bot.h
                  (set_context init_default "telegram" "123")
                  ["/home/bot/files/a.png"] None None None eq_refl)).
  split; reflexivity.
Defined.

(** C5 as the specification words it fails on a tool that has no callback
    and no routing context: the target check of line 83 comes first. *)
Lemma C5_counterexample :
  _send_callback init_default = None
  /\ execute Bot.h init_default ["/home/bot/files/a.png"] None None None
     = returns "Error: No target channel/chat specified" []
  /\ "Error: No target channel/chat specified" <> err_not_configured.
Proof. repeat split. discriminate. Qed.


(** ** The first failing path decides *)




(** ** Routing *)

Lemma py_or_spelled requested stored :
  py_or requested stored
  = match requested with
    | Some (String c rest) => String c rest
    | _ => stored
    end.
Proof. now destruct requested as [[|c rest]|]. Qed.

(** C6. Channel and chat id are resolved independently, each to the value
    of the request when that is a non-empty string and to the stored default
    otherwise.  A valid batch is delivered with exactly the pair so resolved
    when both are non-empty, and any delivered message carries it; when one
    of them resolves to the empty string (blank request, empty default) the
    call ends with the missing-target error.  The stored default is what the
    last [set_context] wrote; after [set_context("telegram", "123")] a call
    that leaves out channel and chat id delivers a message for channel
    telegram, chat id 123. *)
Theorem C6_routing_resolution host self :
  (forall file_paths caption req_channel req_chat_id send_callback ps,
      _send_callback self = Some send_callback ->
      file_paths <> [] ->
      Forall2 (passes host self) file_paths ps ->
      match req_channel with
      | Some (String c rest) => String c rest
      | _ => _default_channel self
      end <> "" ->
      match req_chat_id with
      | Some (String c rest) => String c rest
      | _ => _default_chat_id self
      end <> "" ->
      delivered
        (execute host self file_paths caption req_channel req_chat_id)
      = [ {| channel := match req_channel with
                        | Some (String c rest) => String c rest
                        | _ => _default_channel self
                        end;
             chat_id := match req_chat_id with
                        | Some (String c rest) => String c rest
                        | _ => _default_chat_id self
                        end;
             content := match caption with Some text => text | None => "" end;
             files := ps |} ])
  /\ (forall file_paths caption req_channel req_chat_id msg,
         In msg (delivered
                   (execute host self file_paths caption
                      req_channel req_chat_id)) ->
         channel msg = match req_channel with
                       | Some (String c rest) => String c rest
                       | _ => _default_channel self
                       end
         /\ chat_id msg = match req_chat_id with
                          | Some (String c rest) => String c rest
                          | _ => _default_chat_id self
                          end)
  /\ (forall file_paths caption req_channel req_chat_id,
         match req_channel with
         | Some (String c rest) => String c rest
         | _ => _default_channel self
         end = ""
         \/ match req_chat_id with
            | Some (String c rest) => String c rest
            | _ => _default_chat_id self
            end = "" ->
         execute host self file_paths caption req_channel req_chat_id
         = returns "Error: No target channel/chat specified" [])
  /\ (forall c1 i1 c2 i2 file_paths caption req_channel req_chat_id
             send_callback ps,
         _send_callback self = Some send_callback ->
         file_paths <> [] ->
         Forall2 (passes host self) file_paths ps ->
         match req_channel with
         | Some (String c rest) => String c rest
         | _ => c2
         end <> "" ->
         match req_chat_id with
         | Some (String c rest) => String c rest
         | _ => i2
         end <> "" ->
         delivered
           (execute host (set_context (set_context self c1 i1) c2 i2)
              file_paths caption req_channel req_chat_id)
         = [ {| channel := match req_channel with
                           | Some (String c rest) => String c rest
                           | _ => c2
                           end;
                chat_id := match req_chat_id with
                           | Some (String c rest) => String c rest
                           | _ => i2
                           end;
                content :=
                  match caption with Some text => text | None => "" end;
                files := ps |} ])
  /\ (forall file_paths caption send_callback ps,
         _send_callback self = Some send_callback ->
         file_paths <> [] ->
         Forall2 (passes host self) file_paths ps ->
         delivered
           (execute host (set_context self "telegram" "123")
              file_paths caption None None)
         = [ {| channel := "telegram"; chat_id := "123";
                content :=
                  match caption with Some text => text | None => "" end;
                files := ps |} ]).
Proof.
  assert (Hvalid : forall tool file_paths caption req_channel req_chat_id
                          send_callback ps,
      _send_callback tool = Some send_callback ->
      _allowed_dir tool = _allowed_dir self ->
      file_paths <> [] ->
      Forall2 (passes host self) file_paths ps ->
      py_or req_channel (_default_channel tool) <> "" ->
      py_or req_chat_id (_default_chat_id tool) <> "" ->
      delivered
        (execute host tool file_paths caption req_channel req_chat_id)
      = [ {| channel := py_or req_channel (_default_channel tool);
             chat_id := py_or req_chat_id (_default_chat_id tool);
             content := or_default caption "";
             files := ps |} ]).
  { intros tool file_paths caption rc rci cb ps Hcb Had Hne Hps Hc Hi.
    assert (Ht : has_target tool rc rci).
    { unfold has_target, target. cbn [fst snd].
      destruct (py_or rc (_default_channel tool)); [congruence|].
      destruct (py_or rci (_default_chat_id tool)); [congruence|].
      split; reflexivity. }
    rewrite (execute_ready _ _ _ _ _ _ _ Ht Hcb Hne).
    rewrite (validate_allowed_dir host tool self file_paths Had).
    rewrite (validate_all_pass _ _ _ [] _ Hps).
    apply dispatch_delivered. }
  split; [|split; [|split; [|split]]].
  - intros file_paths caption rc rci cb ps Hcb Hne Hps Hc Hi.
    rewrite <- !py_or_spelled in *.
    now apply (Hvalid self file_paths caption rc rci cb ps).
  - intros file_paths caption rc rci msg Hin.
    destruct (execute_delivered_inv _ _ _ _ _ _ _ Hin)
      as [cb [_ [_ [_ [_ [Hmsg _]]]]]].
    rewrite <- !py_or_spelled. rewrite Hmsg. split; reflexivity.
  - intros file_paths caption rc rci H. rewrite <- !py_or_spelled in H.
    apply execute_no_target. unfold has_target, target. cbn [fst snd].
    intros [Hc Hi]. destruct H as [H|H]; rewrite H in *; discriminate.
  - intros c1 i1 c2 i2 file_paths caption req_channel req_chat_id cb ps
      Hcb Hne Hps Hc Hi.
    rewrite <- (py_or_spelled req_channel c2) in *.
    rewrite <- (py_or_spelled req_chat_id i2) in *.
    now apply (Hvalid (set_context (set_context self c1 i1) c2 i2)
                 file_paths caption req_channel req_chat_id cb ps).
  - intros file_paths caption cb ps Hcb Hne Hps.
    apply (Hvalid (set_context self "telegram" "123") file_paths caption
             None None cb ps); auto; discriminate.
Qed.

Lemma C6_witness :
  delivered
    (execute Bot.h Bot.tool ["~/files/a.png"] None (Some "discord") (Some ""))
  = [ {| channel := "discord"; chat_id := "123"; content := "";
         files := ["/home/bot/files/a.png"] |} ]
  /\ (channel {| channel := "telegram"; chat_id := "42"; content := "";
                 files := ["/home/bot/files/a.png"] |} = "telegram"
      /\ chat_id {| channel := "telegram"; chat_id := "42"; content := "";
                    files := ["/home/bot/files/a.png"] |} = "42")
  /\ execute Bot.h (set_context Bot.tool "telegram" "")
       ["~/files/a.png"] None (Some "discord") (Some "")
     = returns "Error: No target channel/chat specified" []
  /\ delivered
       (execute Bot.h
          (set_context (set_context Bot.tool "slack" "7") "matrix" "9")
          ["~/files/a.png"] (Some "hi") None (Some "42"))
     = [ {| channel := "matrix"; chat_id := "42"; content := "hi";
            files := ["/home/bot/files/a.png"] |} ]
  /\ delivered
       (execute Bot.h
          (set_context (set_send_callback init_default accept)
             "telegram" "123")
          ["/home/bot/files/a.png"] None None None)
     = [ {| channel := "telegram"; chat_id := "123"; content := "";
            files := ["/home/bot/files/a.png"] |} ].
Proof.
  destruct (C6_routing_resolution Bot.h Bot.tool)
    as [Hvalid [Hany [_ [Hlast _]]]].
  destruct (C6_routing_resolution Bot.h (set_context Bot.tool "telegram" ""))
    as [_ [_ [Hnone _]]].
  destruct (C6_routing_resolution Bot.h (set_send_callback init_default accept))
    as [_ [_ [_ [_ Hexample]]]].
  split; [|split; [|split; [|split]]].
  - apply (Hvalid ["~/files/a.png"] None (Some "discord") (Some "") accept
             ["/home/bot/files/a.png"]).
    + reflexivity.
    + discriminate.
    + repeat constructor; try (eexists; split; reflexivity).
    + discriminate.
    + discriminate.
  - apply (Hany ["~/files/a.png"] None (Some "") (Some "42")).
    cbn. left. reflexivity.
  - apply (Hnone ["~/files/a.png"] None (Some "discord") (Some "")).
    right. reflexivity.
  - apply (Hlast "slack" "7" "matrix" "9" ["~/files/a.png"] (Some "hi")
             None (Some "42") accept ["/home/bot/files/a.png"]).
    + reflexivity.
    + discriminate.
    + repeat constructor; try (eexists; split; reflexivity).
    + discriminate.
    + discriminate.
  - apply (Hexample ["/home/bot/files/a.png"] None accept
             ["/home/bot/files/a.png"]).
    + reflexivity.
    + discriminate.
    + repeat constructor; try (eexists; split; reflexivity).
Defined.

(** ** Containment *)

(** C7. With an allowed directory configured, a canonical path passes the
    containment check exactly when the string of the canonical allowed
    directory is a prefix of its string; a path that does not is answered
    with [Error: File <path> is outside allowed directory <dir>], the path
    as it was given and the directory as it was configured, and the batch
    is abandoned.  With [/home/bot/files] allowed,
    [/home/bot/files/../secret.txt], which canonicalises to
    [/home/bot/secret.txt], gets that error. *)
Theorem C7_containment host self :
  (forall d a s p,
      _allowed_dir self = Some d ->
      resolve host d = Value a ->
      canonical host s p ->
      (contained host self p <-> String.prefix a p = true)
      /\ (validate_one host self s
          = Return ("Error: File " ++ s ++ " is outside allowed directory "
                      ++ d)
          <-> String.prefix a p = false))
  /\ (forall d a before ps s p rest caption req_channel req_chat_id
             send_callback,
         _allowed_dir self = Some d ->
         resolve host d = Value a ->
         has_target self req_channel req_chat_id ->
         _send_callback self = Some send_callback ->
         Forall2 (passes host self) before ps ->
         canonical host s p ->
         String.prefix a p = false ->
         execute host self (before ++ s :: rest) caption
           req_channel req_chat_id
         = returns
             ("Error: File " ++ s ++ " is outside allowed directory " ++ d)
             [])
  /\ (forall caption req_channel req_chat_id send_callback,
         _allowed_dir self = Some "/home/bot/files" ->
         resolve host "/home/bot/files" = Value "/home/bot/files" ->
         canonical host "/home/bot/files/../secret.txt"
           "/home/bot/secret.txt" ->
         has_target self req_channel req_chat_id ->
         _send_callback self = Some send_callback ->
         execute host self ["/home/bot/files/../secret.txt"] caption
           req_channel req_chat_id
         = returns
             "Error: File /home/bot/files/../secret.txt is outside allowed directory /home/bot/files"
             []).
Proof.
  split; [|split].
  - intros d a s p Hd Ha Hcan. split.
    + unfold contained. rewrite Hd. split.
      * intros [a' [Ha' Hs]]. unfold startswith in Hs. congruence.
      * intros Hs. exists a. auto.
    + split; [|now apply outside_is_rejected].
      intros Hout. destruct (String.prefix a p) eqn:Hs; [exfalso|reflexivity].
      destruct Hcan as [e [He Hr]]. revert Hout.
      unfold validate_one, try_body, bind, call, return_if, startswith.
      rewrite He, Hr, Hd, Ha, Hs. cbn.
      destruct (exists_ host p) as [[|]| |]; cbn.
      * destruct (is_file host p) as [[|]| |]; cbn; discriminate.
      * intros H. apply Return_inj in H. symmetry in H.
        exact (err_outside_not_found _ _ H).
      * discriminate.
      * discriminate.
  - intros d a before ps s p rest caption rc rci cb Hd Ha Ht Hcb Hps Hcan Hs.
    apply (execute_first_failure _ _ _ ps _ _ _ _ _ _ cb); auto.
    now apply outside_is_rejected with a p.
  - intros caption rc rci cb Hd Ha Hcan Ht Hcb.
    apply (execute_first_failure _ _ [] [] _ [] _ _ _ _ cb); auto.
    exact (outside_is_rejected _ _ "/home/bot/files" "/home/bot/files"
             "/home/bot/files/../secret.txt" "/home/bot/secret.txt"
             Hd Ha Hcan eq_refl).
Qed.

Lemma C7_witness :
  ((contained Bot.h Bot.tool "/home/bot/files/a.png"
    <-> String.prefix "/home/bot/files" "/home/bot/files/a.png" = true)
   /\ (validate_one Bot.h Bot.tool "~/files/a.png"
       = Return "Error: File ~/files/a.png is outside allowed directory /home/bot/files"
       <-> String.prefix "/home/bot/files" "/home/bot/files/a.png" = false))
  /\ execute Bot.h Bot.tool
       ["/home/bot/files/b.pdf"; "/home/bot/secret.txt"; "/home/bot/nope"]
       None None None
     = returns
         "Error: File /home/bot/secret.txt is outside allowed directory /home/bot/files"
         []
  /\ execute Bot.h Bot.tool ["/home/bot/files/../secret.txt"] None None None
     = returns
         "Error: File /home/bot/files/../secret.txt is outside allowed directory /home/bot/files"
         [].
Proof.
  destruct (C7_containment Bot.h Bot.tool) as [Hiff [Hrun Hexample]].
  split; [|split].
  - apply (Hiff "/home/bot/files" "/home/bot/files"
             "~/files/a.png" "/home/bot/files/a.png").
    + reflexivity.
    + reflexivity.
    + eexists. split; reflexivity.
  - apply (Hrun "/home/bot/files" "/home/bot/files"
             ["/home/bot/files/b.pdf"] ["/home/bot/files/b.pdf"]
             "/home/bot/secret.txt" "/home/bot/secret.txt"
             ["/home/bot/nope"] None None None accept).
    + reflexivity.
    + reflexivity.
    + split; reflexivity.
    + reflexivity.
    + repeat constructor; try (eexists; split; reflexivity).
    + eexists. split; reflexivity.
    + reflexivity.
  - apply (Hexample None None None accept).
    + reflexivity.
    + reflexivity.
    + eexists. split; reflexivity.
    + split; reflexivity.
    + reflexivity.
Defined.

(** ** One string for every outcome *)






(** ** The success string *)

(** C9. After a delivery that succeeded, the string returned for one file
    is [Successfully sent <path> to <channel>:<chat_id>] with the canonical
    path of that file, and for more than one file it is
    [Successfully sent <n> file(s) to <channel>:<chat_id>], where [<n>] is
    the number of files in decimal: the digits read back as that number,
    and the paths do not take part in the string.  As many files are sent
    as paths were given. *)
Theorem C9_success_string
    host self file_paths caption req_channel req_chat_id send_callback msg :
  _send_callback self = Some send_callback ->
  In msg (delivered
            (execute host self file_paths caption req_channel req_chat_id)) ->
  send_callback msg = Value tt ->
  length (files msg) = length file_paths
  /\ (forall p,
         files msg = [p] ->
         returned
           (execute host self file_paths caption req_channel req_chat_id)
         = Value ("Successfully sent " ++ p ++ " to "
                    ++ channel msg ++ ":" ++ chat_id msg))
  /\ (1 < length (files msg) ->
      exists digits,
        returned
          (execute host self file_paths caption req_channel req_chat_id)
        = Value ("Successfully sent " ++ digits ++ " file(s) to "
                   ++ channel msg ++ ":" ++ chat_id msg)
        /\ digits = NilEmpty.string_of_uint (Nat.to_uint (length file_paths))
        /\ option_map Nat.of_uint (NilEmpty.uint_of_string digits)
           = Some (length file_paths)).
Proof.
  intros Hcb Hin Hsend.
  destruct (execute_delivered_inv _ _ _ _ _ _ _ Hin)
    as [cb [_ [Hcb' [_ [Hps [_ Hrun]]]]]].
  assert (cb = send_callback) by congruence. subst cb.
  assert (Hlen : length (files msg) = length file_paths)
    by (symmetry; exact (Forall2_length Hps)).
  rewrite Hrun. unfold dispatch.
  replace {| channel := channel msg; chat_id := chat_id msg;
             content := content msg; files := files msg |}
    with msg by now destruct msg.
  rewrite Hsend. split; [exact Hlen|split].
  - intros p Hp. rewrite Hp. reflexivity.
  - intros Hmany. rewrite (files_desc_many _ Hmany).
    exists (NilEmpty.string_of_uint (Nat.to_uint (length file_paths))).
    split; [|split].
    + cbn [returned returns]. unfold msg_success, str_of_int.
      rewrite Hlen. cbn. now rewrite append_assoc.
    + reflexivity.
    + rewrite NilEmpty.usu. cbn. now rewrite DecimalNat.Unsigned.of_to.
Qed.

Lemma C9_witness :
  (forall p,
      ["/home/bot/files/a.png"] = [p] ->
      returned
        (execute Bot.h Bot.tool ["~/files/a.png"] None None None)
      = Value ("Successfully sent " ++ p ++ " to telegram:123"))
  /\ (exists digits,
         returned
           (execute Bot.h Bot.tool ["~/files/a.png"; "~/files/b.pdf"]
              None None None)
         = Value ("Successfully sent " ++ digits ++ " file(s) to "
                    ++ "telegram" ++ ":" ++ "123")
         /\ digits = "2"
         /\ option_map Nat.of_uint (NilEmpty.uint_of_string digits) = Some 2)
  /\ (exists digits,
         returned
           (execute Bot.h Bot.tool (repeat "~/files/a.png" 12)
              None (Some "discord") None)
         = Value ("Successfully sent " ++ digits ++ " file(s) to "
                    ++ "discord" ++ ":" ++ "123")
         /\ digits = "12"
         /\ option_map Nat.of_uint (NilEmpty.uint_of_string digits)
            = Some 12).
Proof.
  split; [|split].
  - apply (C9_success_string Bot.h Bot.tool ["~/files/a.png"] None None None
             accept
             {| channel := "telegram"; chat_id := "123"; content := "";
                files := ["/home/bot/files/a.png"] |}).
    + reflexivity.
    + cbn. left. reflexivity.
    + reflexivity.
  - apply (C9_success_string Bot.h Bot.tool
             ["~/files/a.png"; "~/files/b.pdf"] None None None accept
             {| channel := "telegram"; chat_id := "123"; content := "";
                files := ["/home/bot/files/a.png";
                          "/home/bot/files/b.pdf"] |}).
    + reflexivity.
    + cbn. left. reflexivity.
    + reflexivity.
    + cbn. lia.
  - apply (C9_success_string Bot.h Bot.tool (repeat "~/files/a.png" 12)
             None (Some "discord") None accept
             {| channel := "discord"; chat_id := "123"; content := "";
                files := repeat "/home/bot/files/a.png" 12 |}).
    + reflexivity.
    + cbn. left. reflexivity.
    + reflexivity.
    + cbn. lia.
Defined.

(** ** The order of the checks *)

(** C10. With an allowed directory configured, containment is decided
    before the file system is asked whether the path exists: a path whose
    canonical form is outside the directory gets the containment error
    whatever [exists] and [is_file] would answer, and the batch ends with
    it; the not-found and the not-a-file error are returned for a path only
    after it passed containment. *)
Theorem C10_containment_first host self d :
  _allowed_dir self = Some d ->
  (forall a s p exists' is_file',
      resolve host d = Value a ->
      canonical host s p ->
      startswith p a = false ->
      validate_one
        (mkHost (expanduser host) (resolve host) exists' is_file') self s
      = Return (err_outside s d))
  /\ (forall a before ps s p rest caption req_channel req_chat_id
             send_callback,
         resolve host d = Value a ->
         has_target self req_channel req_chat_id ->
         _send_callback self = Some send_callback ->
         Forall2 (passes host self) before ps ->
         canonical host s p ->
         startswith p a = false ->
         execute host self (before ++ s :: rest) caption
           req_channel req_chat_id
         = returns (err_outside s d) [])
  /\ (forall s,
         validate_one host self s = Return (err_not_found s)
         \/ validate_one host self s = Return (err_not_a_file s) ->
         exists a p,
           resolve host d = Value a
           /\ canonical host s p
           /\ startswith p a = true).
Proof.
  intros Hd. split; [|split].
  - intros a s p exists' is_file' Ha Hcan Hs.
    now apply outside_is_rejected with a p.
  - intros a before ps s p rest caption rc rci cb Ha Ht Hcb Hps Hcan Hs.
    apply (execute_first_failure _ _ _ ps _ _ _ _ _ _ cb); auto.
    now apply outside_is_rejected with a p.
  - intros s.
    unfold validate_one, try_body, bind, call, return_if, canonical.
    destruct (expanduser host s) as [x| |] eqn:Hx; cbn;
      [|intros [H|H]; discriminate H|intros [H|H]; discriminate H].
    destruct (resolve host x) as [p| |] eqn:Hp; cbn;
      [|intros [H|H]; discriminate H|intros [H|H]; discriminate H].
    rewrite Hd.
    destruct (resolve host d) as [a| |] eqn:Ha; cbn;
      [|intros [H|H]; discriminate H|intros [H|H]; discriminate H].
    destruct (startswith p a) eqn:Hs; cbn.
    + intros _. exists a, p.
      split; [reflexivity|]. split; [exists x; auto | assumption].
    + intros [H|H]; apply Return_inj in H; exfalso.
      * exact (err_outside_not_found _ _ H).
      * exact (err_outside_not_a_file _ _ H).
Qed.

Lemma C10_witness :
  validate_one
    (mkHost (expanduser Bot.h) (resolve Bot.h)
       (fun _ => Value false) (fun _ => Raises "Permission denied"))
    Bot.tool "/home/bot/secret.txt"
  = Return (err_outside "/home/bot/secret.txt" "/home/bot/files")
  /\ execute Bot.h Bot.tool ["/home/bot/nope"] None None None
     = returns (err_outside "/home/bot/nope" "/home/bot/files") []
  /\ exists a p,
       resolve Bot.h "/home/bot/files" = Value a
       /\ canonical Bot.h "/home/bot/files/nope" p
       /\ startswith p a = true.
Proof.
  destruct (C10_containment_first Bot.h Bot.tool "/home/bot/files" eq_refl)
    as [Hone [Hrun Hlater]].
  split; [|split].
  - apply (Hone "/home/bot/files" "/home/bot/secret.txt"
             "/home/bot/secret.txt").
    + reflexivity.
    + eexists. split; reflexivity.
    + reflexivity.
  - apply (Hrun "/home/bot/files" [] [] "/home/bot/nope" "/home/bot/nope" []
             None None None accept).
    + reflexivity.
    + split; reflexivity.
    + reflexivity.
    + constructor.
    + eexists. split; reflexivity.
    + reflexivity.
  - apply (Hlater "/home/bot/files/nope"). left. reflexivity.
Defined.

(** * Further properties of [execute] *)

(** ** What the loop depends on *)

Lemma append_cancel_l s t u : s ++ t = s ++ u -> t = u.
Proof.
  induction s as [|c s IH]; cbn; [trivial|].
  intros H. injection H as H. auto.
Qed.

Lemma err_validating_inj s e e' :
  err_validating s e = err_validating s e' -> e = e'.
Proof.
  unfold err_validating. intros H.
  apply append_cancel_l in H. apply append_cancel_l in H.
  exact (append_cancel_l ": " _ _ H).
Qed.

(** The loop asks [expanduser] about the input paths only. *)
Lemma validate_one_host h h' self s :
  expanduser h s = expanduser h' s ->
  (forall x, resolve h x = resolve h' x) ->
  (forall p, exists_ h p = exists_ h' p) ->
  (forall p, is_file h p = is_file h' p) ->
  validate_one h self s = validate_one h' self s.
Proof.
  intros He Hr Hx Hf. unfold validate_one, try_body, bind, call.
  rewrite He. destruct (expanduser h' s) as [x| |]; try reflexivity.
  rewrite Hr. destruct (resolve h' x) as [p| |]; try reflexivity.
  rewrite Hx, Hf.
  destruct (_allowed_dir self) as [d|]; [rewrite Hr|]; reflexivity.
Qed.

Lemma validate_host h h' self file_paths :
  (forall s, In s file_paths -> expanduser h s = expanduser h' s) ->
  (forall x, resolve h x = resolve h' x) ->
  (forall p, exists_ h p = exists_ h' p) ->
  (forall p, is_file h p = is_file h' p) ->
  forall validated_paths,
    validate h self file_paths validated_paths
    = validate h' self file_paths validated_paths.
Proof.
  intros He Hr Hx Hf.
  induction file_paths as [|s rest IH]; intros acc; cbn; [reflexivity|].
  rewrite (validate_one_host h h' self s (He s (or_introl eq_refl)) Hr Hx Hf).
  destruct (validate_one h' self s); cbn; try reflexivity.
  apply IH. intros s' Hin. apply He. now right.
Qed.

(** The loop over a concatenation is the loop over the first list followed
    by the loop over the second. *)
Lemma validate_app host self front back : forall validated_paths,
  validate host self (front ++ back) validated_paths
  = bind (validate host self front validated_paths)
         (fun validated => validate host self back validated).
Proof.
  induction front as [|s front IH]; intros acc; cbn; [reflexivity|].
  destruct (validate_one host self s); cbn; auto.
Qed.

(** Where the loop starts does not change how it ends. *)
Lemma validate_Return_start host self file_paths : forall start start' msg,
  validate host self file_paths start = Return msg ->
  validate host self file_paths start' = Return msg.
Proof.
  induction file_paths as [|s rest IH]; intros acc acc' msg; cbn;
    [discriminate|].
  destruct (validate_one host self s); cbn; eauto.
Qed.

(** ** Edge cases of the batch *)

(** X1. An empty list of paths is refused without touching the file system
    or the callback: the run is the same on every host and delivers
    nothing, and once the routing pair resolves and a callback is set the
    string is [Error: No file paths provided]. *)
Theorem X1_empty_batch host self caption req_channel req_chat_id :
  (forall host',
      execute host' self [] caption req_channel req_chat_id
      = execute host self [] caption req_channel req_chat_id)
  /\ delivered (execute host self [] caption req_channel req_chat_id) = []
  /\ (forall send_callback,
         has_target self req_channel req_chat_id ->
         _send_callback self = Some send_callback ->
         execute host self [] caption req_channel req_chat_id
         = returns "Error: No file paths provided" []).
Proof.
  split; [|split].
  - intros host'. unfold execute.
    destruct (negb _ || negb _); [reflexivity|].
    destruct (_send_callback self); reflexivity.
  - unfold execute.
    destruct (negb _ || negb _); [reflexivity|].
    destruct (_send_callback self); reflexivity.
  - intros cb [Hc Hi] Hcb. unfold execute. unfold target in Hc, Hi.
    cbn [fst snd] in Hc, Hi. rewrite Hc, Hi, Hcb. reflexivity.
Qed.

Lemma X1_witness :
  execute Variants.looping Bot.tool [] None None None
  = execute Bot.h Bot.tool [] None None None
  /\ execute Bot.h Bot.tool [] None None None
     = returns "Error: No file paths provided" [].
Proof.
  destruct (X1_empty_batch Bot.h Bot.tool None None None)
    as [Hhost [_ Hempty]].
  split.
  - apply Hhost.
  - apply (Hempty accept); [split; reflexivity | reflexivity].
Defined.

Section Faulty.

Variable host : Host.
Variable self : SendFileTool.

Lemma check_raises_validate_one s e :
  check_raises host self s e ->
  validate_one host self s = Return (err_validating s e).
Proof.
  unfold validate_one, try_body, bind, call, return_if, check_raises,
    contained.
  intros [H|[[x [Hx H]]|[p [[x [Hx Hp]] H]]]].
  - now rewrite H.
  - now rewrite Hx, H.
  - rewrite Hx, Hp.
    destruct H as [[d [Hd H]]|[[Hc H]|[Hc [Hex H]]]].
    + now rewrite Hd, H.
    + destruct (_allowed_dir self) as [d|].
      * destruct Hc as [a [Ha Hs]]. now rewrite Ha, Hs, H.
      * now rewrite H.
    + destruct (_allowed_dir self) as [d|].
      * destruct Hc as [a [Ha Hs]]. rewrite Ha, Hs. cbn.
        rewrite Hex. cbn. now rewrite H.
      * cbn. rewrite Hex. cbn. now rewrite H.
Qed.

Lemma validate_one_check_raises s e :
  validate_one host self s = Return (err_validating s e) ->
  check_raises host self s e.
Proof.
  unfold validate_one, try_body, bind, call, return_if, check_raises,
    canonical, contained.
  destruct (expanduser host s) as [x|e0|u] eqn:Hx; cbn;
    [| |intros H; discriminate H].
  2: { intros H. apply Return_inj, err_validating_inj in H. subst. auto. }
  destruct (resolve host x) as [p|e0|u] eqn:Hp; cbn;
    [| |intros H; discriminate H].
  2: { intros H. apply Return_inj, err_validating_inj in H. subst.
       right. left. eauto. }
  intros H. right. right. exists p. split; [eauto|]. revert H.
  destruct (_allowed_dir self) as [d|].
  - destruct (resolve host d) as [a|e0|u] eqn:Ha; cbn;
      [| |intros H; discriminate H].
    2: { intros H. apply Return_inj, err_validating_inj in H. subst.
         left. eauto. }
    destruct (startswith p a) eqn:Hs; cbn; [|intros H; discriminate H].
    destruct (exists_ host p) as [[|]|e0|u] eqn:Hex; cbn.
    + destruct (is_file host p) as [[|]|e0|u] eqn:Hf; cbn;
        try (intros H; discriminate H).
      intros H. apply Return_inj, err_validating_inj in H. subst.
      right. right. eauto.
    + intros H; discriminate H.
    + intros H. apply Return_inj, err_validating_inj in H. subst.
      right. left. eauto.
    + intros H; discriminate H.
  - destruct (exists_ host p) as [[|]|e0|u] eqn:Hex; cbn.
    + destruct (is_file host p) as [[|]|e0|u] eqn:Hf; cbn;
        try (intros H; discriminate H).
      intros H. apply Return_inj, err_validating_inj in H. subst.
      right. right. auto.
    + intros H; discriminate H.
    + intros H. apply Return_inj, err_validating_inj in H. subst.
      right. left. auto.
    + intros H; discriminate H.
Qed.

End Faulty.

(** X2. The loop body answers a path with
    [Error validating file path <path>: <text>] exactly when one of the
    [pathlib] calls it makes for that path raised, [<text>] being the text
    of that exception; when this happens to the first path of a batch that
    does not pass, [execute] returns that string and delivers nothing. *)
Theorem X2_pathlib_fault host self :
  (forall s e,
      validate_one host self s = Return (err_validating s e)
      <-> check_raises host self s e)
  /\ (forall before ps s e rest caption req_channel req_chat_id
             send_callback,
         has_target self req_channel req_chat_id ->
         _send_callback self = Some send_callback ->
         Forall2 (passes host self) before ps ->
         check_raises host self s e ->
         execute host self (before ++ s :: rest) caption
           req_channel req_chat_id
         = returns ("Error validating file path " ++ s ++ ": " ++ e) []).
Proof.
  split.
  - intros s e. split.
    + apply validate_one_check_raises.
    + apply check_raises_validate_one.
  - intros before ps s e rest caption rc rci cb Ht Hcb Hps Hraise.
    apply (execute_first_failure _ _ _ ps _ _ _ _ _ _ cb); auto.
    now apply check_raises_validate_one.
Qed.

Lemma X2_witness :
  (validate_one Variants.looping Bot.open_tool "~/files/a.png"
   = Return (err_validating "~/files/a.png"
               "Symlink loop from /home/bot/files/a.png")
   <-> check_raises Variants.looping Bot.open_tool "~/files/a.png"
         "Symlink loop from /home/bot/files/a.png")
  /\ execute Variants.homeless Bot.tool
       ["~/files/a.png"; "~root/x"; "/home/bot/nope"] None None None
     = returns
         "Error validating file path ~root/x: Could not determine home directory."
         [].
Proof.
  destruct (X2_pathlib_fault Variants.looping Bot.open_tool) as [Hiff _].
  destruct (X2_pathlib_fault Variants.homeless Bot.tool) as [_ Hrun].
  split.
  - apply Hiff.
  - apply (Hrun ["~/files/a.png"] ["/home/bot/files/a.png"] "~root/x"
             "Could not determine home directory." ["/home/bot/nope"]
             None None None accept).
    + split; reflexivity.
    + reflexivity.
    + repeat constructor; try (eexists; split; reflexivity).
    + left. reflexivity.
Defined.

(** X3. A path that canonicalises, passes containment and exists but is
    not a regular file (a directory, for one) stops the batch with
    [Error: Not a file: <path>] when every path before it passes; nothing
    is delivered. *)
Theorem X3_not_a_regular_file
    host self before ps s p rest caption req_channel req_chat_id
    send_callback :
  has_target self req_channel req_chat_id ->
  _send_callback self = Some send_callback ->
  Forall2 (passes host self) before ps ->
  canonical host s p ->
  contained host self p ->
  exists_ host p = Value true ->
  is_file host p = Value false ->
  execute host self (before ++ s :: rest) caption req_channel req_chat_id
  = returns ("Error: Not a file: " ++ s) [].
Proof.
  intros Ht Hcb Hps [x [Hx Hp]] Hc Hex Hf.
  apply (execute_first_failure _ _ _ ps _ _ _ _ _ _ send_callback); auto.
  unfold validate_one, try_body, bind, call, return_if.
  rewrite Hx, Hp. unfold contained in Hc.
  destruct (_allowed_dir self) as [d|].
  - destruct Hc as [a [Ha Hs]]. rewrite Ha, Hs. cbn.
    rewrite Hex. cbn. now rewrite Hf.
  - cbn. rewrite Hex. cbn. now rewrite Hf.
Qed.

Lemma X3_witness :
  execute Bot.h Bot.tool ["~/files/a.png"; "~/files"; "~/files/b.pdf"]
    None None None
  = returns "Error: Not a file: ~/files" [].
Proof.
  apply (X3_not_a_regular_file Bot.h Bot.tool
           ["~/files/a.png"] ["/home/bot/files/a.png"] "~/files"
           "/home/bot/files" ["~/files/b.pdf"] None None None accept).
  - split; reflexivity.
  - reflexivity.
  - repeat constructor; try (eexists; split; reflexivity).
  - eexists. split; reflexivity.
  - eexists. split; reflexivity.
  - reflexivity.
  - reflexivity.
Defined.

(** ** The containment test, as strings *)

(** X4. The containment test compares strings, not path components: every
    canonical path whose string continues the string of the canonical
    allowed directory passes it, however the continuation begins, so that a
    regular file in a directory whose name merely starts like the allowed
    one is delivered. *)
Theorem X4_prefix_is_on_strings
    host self d a s rest caption req_channel req_chat_id send_callback :
  _allowed_dir self = Some d ->
  resolve host d = Value a ->
  canonical host s (a ++ rest) ->
  exists_ host (a ++ rest) = Value true ->
  is_file host (a ++ rest) = Value true ->
  has_target self req_channel req_chat_id ->
  _send_callback self = Some send_callback ->
  send_callback
    {| channel := py_or req_channel (_default_channel self);
       chat_id := py_or req_chat_id (_default_chat_id self);
       content := or_default caption "";
       files := [a ++ rest] |} = Value tt ->
  contained host self (a ++ rest)
  /\ execute host self [s] caption req_channel req_chat_id
     = returns
         (msg_success (a ++ rest)
            (py_or req_channel (_default_channel self))
            (py_or req_chat_id (_default_chat_id self)))
         [ {| channel := py_or req_channel (_default_channel self);
              chat_id := py_or req_chat_id (_default_chat_id self);
              content := or_default caption "";
              files := [a ++ rest] |} ].
Proof.
  intros Hd Ha Hcan Hex Hf Ht Hcb Hsend.
  assert (Hc : contained host self (a ++ rest)).
  { unfold contained. rewrite Hd. exists a. split; [assumption|].
    apply startswith_append. }
  split; [exact Hc|].
  rewrite (execute_ready _ _ _ _ _ _ _ Ht Hcb) by discriminate.
  assert (Hps : Forall2 (passes host self) [s] [a ++ rest]).
  { repeat constructor; assumption. }
  rewrite (validate_all_pass _ _ _ [] _ Hps). cbn [app].
  unfold dispatch, target. cbn [fst snd]. now rewrite Hsend.
Qed.

Lemma X4_witness :
  contained Bot.h Bot.tool ("/home/bot/files" ++ "-private/key.pem")
  /\ execute Bot.h Bot.tool ["~/files-private/key.pem"] None None None
     = returns
         "Successfully sent /home/bot/files-private/key.pem to telegram:123"
         [ {| channel := "telegram"; chat_id := "123"; content := "";
              files := ["/home/bot/files-private/key.pem"] |} ].
Proof.
  apply (X4_prefix_is_on_strings Bot.h Bot.tool "/home/bot/files"
           "/home/bot/files" "~/files-private/key.pem" "-private/key.pem"
           None None None accept).
  - reflexivity.
  - reflexivity.
  - eexists. split; reflexivity.
  - reflexivity.
  - reflexivity.
  - split; reflexivity.
  - reflexivity.
  - reflexivity.
Defined.

(** ** Fail-fast *)

(** X5. Nothing after the first path that does not pass is looked at: the
    run is the same whatever follows that path in the list. *)
Theorem X5_rest_is_not_examined
    host self before ps s rest rest' caption req_channel req_chat_id :
  Forall2 (passes host self) before ps ->
  (forall p, ~ passes host self s p) ->
  execute host self (before ++ s :: rest) caption req_channel req_chat_id
  = execute host self (before ++ s :: rest') caption req_channel req_chat_id.
Proof.
  intros Hps Hs.
  unfold execute.
  destruct (negb _ || negb _); [reflexivity|].
  destruct (_send_callback self) as [cb|]; [|reflexivity].
  destruct (validate_one host self s) as [p|msg|e|e] eqn:H.
  - exfalso. exact (Hs p (validate_one_passes _ _ _ _ H)).
  - rewrite (validate_first_failure _ _ _ [] _ _ rest _ Hps H).
    rewrite (validate_first_failure _ _ _ [] _ _ rest' _ Hps H).
    now destruct before.
  - exfalso. exact (validate_one_never_raises _ _ _ _ H).
  - rewrite (validate_first_unwind _ _ _ [] _ _ rest _ Hps H).
    rewrite (validate_first_unwind _ _ _ [] _ _ rest' _ Hps H).
    now destruct before.
Qed.

Lemma X5_witness :
  execute Bot.h Bot.tool
    ["~/files/a.png"; "/home/bot/secret.txt"; "~/files/b.pdf"]
    None None None
  = execute Bot.h Bot.tool
      ["~/files/a.png"; "/home/bot/secret.txt"; "/nowhere"; "/home"]
      None None None.
Proof.
  apply (X5_rest_is_not_examined Bot.h Bot.tool
           ["~/files/a.png"] ["/home/bot/files/a.png"]
           "/home/bot/secret.txt" ["~/files/b.pdf"] ["/nowhere"; "/home"]
           None None None).
  - repeat constructor; try (eexists; split; reflexivity).
  - intros p [[e [He Hr]] [[a [Ha Hs]] _]]. cbn in He, Hr, Ha.
    injection He as <-. injection Hr as <-. injection Ha as <-.
    discriminate Hs.
Defined.

(** X6. Valid paths in front of a batch are transparent for its failure:
    when every path of [front] passes and the loop over [back] stops with
    an error, the batch [front ++ back] ends exactly as [back] alone.  When
    both parts pass, the files of the message are those of [front] followed
    by those of [back]. *)
Theorem X6_batches_compose
    host self front back caption req_channel req_chat_id fs :
  Forall2 (passes host self) front fs ->
  (forall msg,
      validate host self back [] = Return msg ->
      execute host self (front ++ back) caption req_channel req_chat_id
      = execute host self back caption req_channel req_chat_id)
  /\ (forall bs send_callback,
         Forall2 (passes host self) back bs ->
         (front ++ back)%list <> [] ->
         has_target self req_channel req_chat_id ->
         _send_callback self = Some send_callback ->
         delivered
           (execute host self (front ++ back) caption
              req_channel req_chat_id)
         = [ {| channel := py_or req_channel (_default_channel self);
                chat_id := py_or req_chat_id (_default_chat_id self);
                content := or_default caption "";
                files := (fs ++ bs)%list |} ]).
Proof.
  intros Hfs. split.
  - intros msg Hback. unfold execute.
    destruct (negb _ || negb _); [reflexivity|].
    destruct (_send_callback self) as [cb|]; [|reflexivity].
    rewrite validate_app, (validate_all_pass _ _ _ [] _ Hfs). cbn [bind app].
    rewrite (validate_Return_start _ _ _ [] fs _ Hback), Hback.
    destruct back as [|b back]; [discriminate Hback|].
    now destruct front.
  - intros bs cb Hbs Hne Ht Hcb.
    rewrite (execute_ready _ _ _ _ _ _ _ Ht Hcb Hne).
    rewrite (validate_all_pass _ _ _ [] _ (Forall2_app Hfs Hbs)).
    apply dispatch_delivered.
Qed.

Lemma X6_witness :
  execute Bot.h Bot.tool
    (["~/files/a.png"; "~/files/b.pdf"] ++ ["/home/bot/files"; "/nowhere"])
    None None None
  = execute Bot.h Bot.tool ["/home/bot/files"; "/nowhere"] None None None
  /\ delivered
       (execute Bot.h Bot.tool
          (["~/files/a.png"; "~/files/b.pdf"] ++ ["~/files/a.png"])
          None None None)
     = [ {| channel := "telegram"; chat_id := "123"; content := "";
            files := (["/home/bot/files/a.png"; "/home/bot/files/b.pdf"]
                        ++ ["/home/bot/files/a.png"])%list |} ].
Proof.
  assert (Hfront : Forall2 (passes Bot.h Bot.tool)
                     ["~/files/a.png"; "~/files/b.pdf"]
                     ["/home/bot/files/a.png"; "/home/bot/files/b.pdf"]).
  { repeat constructor; try (eexists; split; reflexivity). }
  split.
  - apply (proj1 (X6_batches_compose Bot.h Bot.tool
                    ["~/files/a.png"; "~/files/b.pdf"]
                    ["/home/bot/files"; "/nowhere"] None None None
                    ["/home/bot/files/a.png"; "/home/bot/files/b.pdf"]
                    Hfront)
             "Error: Not a file: /home/bot/files").
    reflexivity.
  - apply (proj2 (X6_batches_compose Bot.h Bot.tool
                    ["~/files/a.png"; "~/files/b.pdf"]
                    ["~/files/a.png"] None None None
                    ["/home/bot/files/a.png"; "/home/bot/files/b.pdf"]
                    Hfront)
             ["/home/bot/files/a.png"] accept).
    + repeat constructor; try (eexists; split; reflexivity).
    + discriminate.
    + split; reflexivity.
    + reflexivity.
Defined.

(** ** Routing and context *)

(** X7. A request that names both a channel and a chat id is served
    without the stored context: whatever [set_context] wrote before, the
    run is the same. *)
Theorem X7_request_overrides_context
    host self stored_channel stored_chat_id file_paths caption
    req_channel req_chat_id :
  req_channel <> "" ->
  req_chat_id <> "" ->
  execute host (set_context self stored_channel stored_chat_id)
    file_paths caption (Some req_channel) (Some req_chat_id)
  = execute host self file_paths caption
      (Some req_channel) (Some req_chat_id).
Proof.
  intros Hc Hi. unfold execute.
  rewrite !(py_or_supplied _ _ Hc), !(py_or_supplied _ _ Hi).
  cbn [_send_callback set_context].
  now rewrite (validate_allowed_dir host
                 (set_context self stored_channel stored_chat_id) self
                 file_paths eq_refl).
Qed.

Lemma X7_witness :
  execute Bot.h (set_context Bot.tool "slack" "") ["~/files/a.png"]
    (Some "hi") (Some "discord") (Some "42")
  = execute Bot.h Bot.tool ["~/files/a.png"]
      (Some "hi") (Some "discord") (Some "42").
Proof.
  apply (X7_request_overrides_context Bot.h Bot.tool "slack" ""
           ["~/files/a.png"] (Some "hi") "discord" "42");
    discriminate.
Defined.

(** ** A directory that cannot be canonicalised *)

(** X8. When the allowed directory is configured and canonicalising it
    raises, no call delivers anything; a batch whose first path
    canonicalises ends with the validation error of that path, carrying the
    text of the exception. *)
Theorem X8_allowed_dir_fault host self d e :
  _allowed_dir self = Some d ->
  resolve host d = Raises e ->
  (forall file_paths caption req_channel req_chat_id,
      delivered (execute host self file_paths caption req_channel req_chat_id)
      = [])
  /\ (forall s p rest caption req_channel req_chat_id send_callback,
         has_target self req_channel req_chat_id ->
         _send_callback self = Some send_callback ->
         canonical host s p ->
         execute host self (s :: rest) caption req_channel req_chat_id
         = returns (err_validating s e) []).
Proof.
  intros Hd He. split.
  - intros [|s rest] caption rc rci.
    + unfold execute.
      destruct (negb _ || negb _); [reflexivity|].
      destruct (_send_callback self); reflexivity.
    + apply failing_path_delivers_nothing with s; [now left|].
      intros p [_ [Hc _]]. unfold contained in Hc. rewrite Hd in Hc.
      destruct Hc as [a [Ha _]]. congruence.
  - intros s p rest caption rc rci cb Ht Hcb Hcan.
    apply (execute_first_failure host self [] [] s rest _ caption rc rci cb);
      auto.
    apply check_raises_validate_one. right. right. exists p. split; eauto.
Qed.

Lemma X8_witness :
  delivered
    (execute Variants.unmounted Bot.tool ["~/files/a.png"] None None None)
  = []
  /\ execute Variants.unmounted Bot.tool ["~/files/a.png"; "~/files/b.pdf"]
       None None None
     = returns
         (err_validating "~/files/a.png" "Input/output error") [].
Proof.
  destruct (X8_allowed_dir_fault Variants.unmounted Bot.tool
              "/home/bot/files" "Input/output error" eq_refl eq_refl)
    as [Hnone Hfirst].
  split.
  - apply Hnone.
  - apply (Hfirst "~/files/a.png" "/home/bot/files/a.png" ["~/files/b.pdf"]
             None None None accept).
    + split; reflexivity.
    + reflexivity.
    + eexists. split; reflexivity.
Defined.

(** ** What the strings tell *)

Lemma validate_one_not_guard_error host self s msg :
  validate_one host self s = Return msg ->
  msg <> err_no_target /\ msg <> err_not_configured /\ msg <> err_no_paths.
Proof.
  intros H.
  destruct (validate_one_cases host self s)
    as [[p H']|[[d [_ H']]|[H'|[H'|[[e H']|[e H']]]]]]; rewrite H' in H;
    try discriminate; apply Return_inj in H; subst msg;
    repeat split; try discriminate.
  intros Heq. apply (f_equal String.length) in Heq.
  unfold err_outside, err_not_configured in Heq.
  repeat rewrite length_append in Heq. cbn in Heq. lia.
Qed.

Lemma execute_no_paths host self caption req_channel req_chat_id cb :
  has_target self req_channel req_chat_id ->
  _send_callback self = Some cb ->
  execute host self [] caption req_channel req_chat_id
  = returns err_no_paths [].
Proof.
  intros [Hc Hi] Hcb. unfold execute. unfold target in Hc, Hi.
  cbn [fst snd] in Hc, Hi. now rewrite Hc, Hi, Hcb.
Qed.

(** Settles the three equivalences of the next theorem on a run whose
    result is known. *)
Ltac settle_guards :=
  cbn [returned returns];
  repeat match goal with
         | |- _ /\ _ => split
         | |- _ <-> _ => split
         end;
  intros;
  repeat match goal with
         | H : _ /\ _ |- _ => destruct H
         end;
  try contradiction; try discriminate; try congruence;
  repeat match goal with
         | |- _ /\ _ => split
         end;
  try assumption; try reflexivity; try discriminate; try congruence.

(** X9. The three guard errors name their cause exactly: the run returns
    the missing-target string iff the routing pair does not resolve, the
    not-configured string iff it resolves and no callback is set, and the
    no-paths string iff it resolves, a callback is set and the list is
    empty. *)
Theorem X9_guard_errors_are_exact
    host self file_paths caption req_channel req_chat_id :
  (returned (execute host self file_paths caption req_channel req_chat_id)
   = Value err_no_target
   <-> ~ has_target self req_channel req_chat_id)
  /\ (returned (execute host self file_paths caption req_channel req_chat_id)
      = Value err_not_configured
      <-> has_target self req_channel req_chat_id
          /\ _send_callback self = None)
  /\ (returned (execute host self file_paths caption req_channel req_chat_id)
      = Value err_no_paths
      <-> has_target self req_channel req_chat_id
          /\ _send_callback self <> None
          /\ file_paths = []).
Proof.
  assert (Hdec : has_target self req_channel req_chat_id
                 \/ ~ has_target self req_channel req_chat_id).
  { unfold has_target.
    destruct (truthy (fst (target self req_channel req_chat_id)));
      destruct (truthy (snd (target self req_channel req_chat_id)));
      (left; split; reflexivity) || (right; intros [? ?]; discriminate). }
  destruct Hdec as [Ht|Ht].
  { destruct (_send_callback self) as [cb|] eqn:Hcb.
    - destruct file_paths as [|s rest].
      + rewrite (execute_no_paths _ _ _ _ _ _ Ht Hcb). settle_guards.
      + assert (Hne : s :: rest <> []) by discriminate.
        rewrite (execute_ready _ _ _ _ _ _ _ Ht Hcb Hne).
        destruct (validate host self (s :: rest) []) as [out|msg|e|e] eqn:Hv.
        * unfold dispatch. destruct (cb _); [destruct (files_desc out)| |];
            settle_guards.
        * destruct (validate_Return_inv _ _ _ _ _ Hv)
            as [before [ps [s' [rest' [_ [_ Hs']]]]]].
          destruct (validate_one_not_guard_error _ _ _ _ Hs')
            as [H1 [H2 H3]].
          settle_guards.
        * exfalso. exact (validate_never_raises _ _ _ _ _ Hv).
        * settle_guards.
    - rewrite (execute_not_configured _ _ _ _ _ _ Ht Hcb). settle_guards. }
  rewrite (execute_no_target _ _ _ _ _ _ Ht). settle_guards.
Qed.

Lemma X9_witness :
  ~ has_target (set_context Bot.tool "telegram" "") None None
  /\ returned
       (execute Bot.h (set_context Bot.tool "telegram" "")
          ["~/files/a.png"] None None (Some ""))
     = Value err_no_target.
Proof.
  assert (H : ~ has_target (set_context Bot.tool "telegram" "") None (Some "")).
  { intros [_ H]. discriminate H. }
  split.
  - intros [_ H']. discriminate H'.
  - apply (proj2 (proj1 (X9_guard_errors_are_exact Bot.h
                           (set_context Bot.tool "telegram" "")
                           ["~/files/a.png"] None None (Some "")))).
    exact H.
Defined.

(** X10. The errors of the loop body do not name their cause in the same
    way: for every [x], the containment error for the path
    [not found: x] is the very string of the not-found error for the path
    [x is outside allowed directory <dir>], so that a run stopped by the
    containment check and a run stopped by the existence check are equal. *)
Theorem X10_path_errors_overlap
    host self d a x p q caption req_channel req_chat_id :
  _allowed_dir self = Some d ->
  resolve host d = Value a ->
  canonical host ("not found: " ++ x) p ->
  startswith p a = false ->
  canonical host (x ++ " is outside allowed directory " ++ d) q ->
  startswith q a = true ->
  exists_ host q = Value false ->
  validate_one host self ("not found: " ++ x)
  = Return (err_outside ("not found: " ++ x) d)
  /\ validate_one host self (x ++ " is outside allowed directory " ++ d)
     = Return (err_not_found (x ++ " is outside allowed directory " ++ d))
  /\ execute host self ["not found: " ++ x] caption req_channel req_chat_id
     = execute host self [x ++ " is outside allowed directory " ++ d]
         caption req_channel req_chat_id.
Proof.
  intros Hd Ha Hp Hout Hq Hin Hex.
  assert (H1 : validate_one host self ("not found: " ++ x)
               = Return (err_outside ("not found: " ++ x) d))
    by now apply outside_is_rejected with a p.
  assert (H2 : validate_one host self
                 (x ++ " is outside allowed directory " ++ d)
               = Return (err_not_found
                           (x ++ " is outside allowed directory " ++ d))).
  { destruct Hq as [y [Hy Hr]].
    unfold validate_one, try_body, bind, call, return_if.
    rewrite Hy, Hr, Hd, Ha, Hin. cbn. now rewrite Hex. }
  split; [exact H1|]. split; [exact H2|].
  unfold execute.
  destruct (negb _ || negb _); [reflexivity|].
  destruct (_send_callback self) as [cb|]; [|reflexivity].
  cbn [validate]. rewrite H1, H2. reflexivity.
Qed.

Lemma X10_witness :
  validate_one Bot.h Bot.tool ("not found: " ++ "/home/bot/files/a")
  = Return (err_outside ("not found: " ++ "/home/bot/files/a")
              "/home/bot/files")
  /\ validate_one Bot.h Bot.tool
       ("/home/bot/files/a" ++ " is outside allowed directory "
          ++ "/home/bot/files")
     = Return (err_not_found
                 ("/home/bot/files/a" ++ " is outside allowed directory "
                    ++ "/home/bot/files"))
  /\ execute Bot.h Bot.tool ["not found: " ++ "/home/bot/files/a"]
       None None None
     = execute Bot.h Bot.tool
         ["/home/bot/files/a" ++ " is outside allowed directory "
            ++ "/home/bot/files"]
         None None None.
Proof.
  apply (X10_path_errors_overlap Bot.h Bot.tool "/home/bot/files"
           "/home/bot/files" "/home/bot/files/a"
           "/not found: /home/bot/files/a"
           "/home/bot/files/a is outside allowed directory /home/bot/files"
           None None None).
  - reflexivity.
  - reflexivity.
  - eexists. split; reflexivity.
  - reflexivity.
  - eexists. split; reflexivity.
  - reflexivity.
  - reflexivity.
Defined.

(** ** What is asked of the host *)

(** X11. [execute] asks for user expansion of the input paths only; the
    allowed directory is canonicalised as it was configured.  Two hosts
    that expand the input paths alike and agree on [resolve], [exists] and
    [is_file] give the same run, whatever they would make of [~] in the
    allowed directory. *)
Theorem X11_expansion_only_of_inputs
    host host' self file_paths caption req_channel req_chat_id :
  (forall s, In s file_paths -> expanduser host s = expanduser host' s) ->
  (forall x, resolve host x = resolve host' x) ->
  (forall p, exists_ host p = exists_ host' p) ->
  (forall p, is_file host p = is_file host' p) ->
  execute host self file_paths caption req_channel req_chat_id
  = execute host' self file_paths caption req_channel req_chat_id.
Proof.
  intros He Hr Hx Hf. unfold execute.
  now rewrite (validate_host host host' self file_paths He Hr Hx Hf).
Qed.

Lemma X11_witness :
  execute Bot.h Variants.tilde_tool
    ["~/files/a.png"; "/home/bot/files/b.pdf"] None None None
  = execute Variants.homeless Variants.tilde_tool
      ["~/files/a.png"; "/home/bot/files/b.pdf"] None None None.
Proof.
  apply (X11_expansion_only_of_inputs Bot.h Variants.homeless
           Variants.tilde_tool ["~/files/a.png"; "/home/bot/files/b.pdf"]
           None None None).
  - intros s [<-|[<-|[]]]; reflexivity.
  - reflexivity.
  - reflexivity.
  - reflexivity.
Defined.

Example tilde_in_allowed_dir_is_kept :
  execute Bot.h Variants.tilde_tool ["~/files/a.png"] None None None
  = returns
      "Error: File ~/files/a.png is outside allowed directory ~/files" [].
Proof. reflexivity. Qed.

(** ** From construction to delivery *)

(** X12. A tool constructed with every argument left out delivers
    nothing: it answers with the missing-target error unless the request
    names both a channel and a chat id, and with the not-configured error
    when it does.  Once [set_send_callback] and [set_context] have been
    called on it, in either order, a valid batch sent without channel and
    chat id reaches that callback for the stored pair. *)
Theorem X12_fresh_tool host file_paths caption req_channel req_chat_id :
  delivered
    (execute host (__init__ None None None None) file_paths caption
       req_channel req_chat_id) = []
  /\ (blank req_channel \/ blank req_chat_id ->
      execute host (__init__ None None None None) file_paths caption
        req_channel req_chat_id
      = returns err_no_target [])
  /\ (forall c i,
         req_channel = Some c -> req_chat_id = Some i ->
         c <> "" -> i <> "" ->
         execute host (__init__ None None None None) file_paths caption
           req_channel req_chat_id
         = returns err_not_configured [])
  /\ (forall send_callback c i ps,
         c <> "" -> i <> "" ->
         file_paths <> [] ->
         Forall2 (passes host (__init__ None None None None)) file_paths ps ->
         set_context
           (set_send_callback (__init__ None None None None) send_callback)
           c i
         = set_send_callback
             (set_context (__init__ None None None None) c i) send_callback
         /\ delivered
              (execute host
                 (set_context
                    (set_send_callback (__init__ None None None None)
                       send_callback) c i)
                 file_paths caption None None)
            = [ {| channel := c; chat_id := i;
                   content := or_default caption ""; files := ps |} ]).
Proof.
  split; [|split; [|split]].
  - unfold execute. destruct (negb _ || negb _); reflexivity.
  - intros H. apply execute_no_target. unfold has_target, target. cbn.
    destruct H as [H|H]; rewrite (truthy_py_or_blank _ _ H); cbn;
      intros [? ?]; discriminate.
  - intros c i -> -> Hc Hi. apply execute_not_configured; [|reflexivity].
    unfold has_target, target. cbn [fst snd].
    rewrite (py_or_supplied _ _ Hc), (py_or_supplied _ _ Hi).
    destruct c; [congruence|]. destruct i; [congruence|]. split; reflexivity.
  - intros cb c i ps Hc Hi Hne Hps. split; [reflexivity|].
    assert (Ht : has_target
                   (set_context
                      (set_send_callback (__init__ None None None None) cb)
                      c i) None None).
    { unfold has_target, target. cbn.
      destruct c; [congruence|]. destruct i; [congruence|].
      split; reflexivity. }
    rewrite (execute_ready _ _ _ _ _ _ cb Ht eq_refl Hne).
    change (Forall2
              (passes host
                 (set_context
                    (set_send_callback (__init__ None None None None) cb)
                    c i)) file_paths ps) in Hps.
    rewrite (validate_all_pass _ _ _ [] _ Hps).
    apply dispatch_delivered.
Qed.

Lemma X12_witness :
  execute Bot.h (__init__ None None None None) ["~/files/a.png"] None
    None (Some "123")
  = returns err_no_target []
  /\ execute Bot.h (__init__ None None None None) ["~/files/a.png"] None
       (Some "telegram") (Some "123")
     = returns err_not_configured []
  /\ delivered
       (execute Bot.h
          (set_context
             (set_send_callback (__init__ None None None None) accept)
             "telegram" "123")
          ["/home/bot/secret.txt"] None None None)
     = [ {| channel := "telegram"; chat_id := "123"; content := "";
            files := ["/home/bot/secret.txt"] |} ].
Proof.
  split; [|split].
  - apply (proj1 (proj2 (X12_fresh_tool Bot.h ["~/files/a.png"] None
                           None (Some "123")))).
    left. left. reflexivity.
  - apply (proj1 (proj2 (proj2 (X12_fresh_tool Bot.h ["~/files/a.png"] None
                                  (Some "telegram") (Some "123"))))
             "telegram" "123"); reflexivity || discriminate.
  - apply (proj2 (proj2 (proj2 (X12_fresh_tool Bot.h
                                  ["/home/bot/secret.txt"] None None None)))
             accept "telegram" "123" ["/home/bot/secret.txt"]).
    + discriminate.
    + discriminate.
    + discriminate.
    + repeat constructor; try (eexists; split; reflexivity).
Defined.

(** ** The caption *)

(** X13. The caption travels in the content of the message and nowhere
    else: with a callback whose outcome does not depend on the content, two
    calls that differ in the caption return the same string and deliver
    messages with the same channel, chat id and files. *)
Theorem X13_caption_only_in_content
    host self file_paths caption caption' req_channel req_chat_id :
  (forall send_callback,
      _send_callback self = Some send_callback ->
      ignores_content send_callback) ->
  returned (execute host self file_paths caption req_channel req_chat_id)
  = returned (execute host self file_paths caption' req_channel req_chat_id)
  /\ map (fun msg => (channel msg, chat_id msg, files msg))
       (delivered
          (execute host self file_paths caption req_channel req_chat_id))
     = map (fun msg => (channel msg, chat_id msg, files msg))
         (delivered
            (execute host self file_paths caption' req_channel req_chat_id))
  /\ map content
       (delivered
          (execute host self file_paths caption req_channel req_chat_id))
     = map (fun _ => or_default caption "")
         (delivered
            (execute host self file_paths caption req_channel req_chat_id)).
Proof.
  intros Hcb. unfold execute.
  destruct (negb _ || negb _); [repeat split|].
  destruct (_send_callback self) as [cb|]; [|repeat split].
  destruct file_paths as [|s rest]; [repeat split|].
  destruct (validate host self (s :: rest) []) as [out|msg|e|e];
    [|repeat split|repeat split|repeat split].
  unfold dispatch.
  rewrite (Hcb cb eq_refl _ _ (or_default caption "")
             (or_default caption' "") out).
  destruct (cb _); [destruct (files_desc out)| |]; repeat split.
Qed.

Lemma X13_witness :
  returned (execute Bot.h Bot.tool ["~/files/a.png"] (Some "one") None None)
  = returned (execute Bot.h Bot.tool ["~/files/a.png"] (Some "two") None None)
  /\ map content
       (delivered
          (execute Bot.h Bot.tool ["~/files/a.png"] (Some "one") None None))
     = map (fun _ => "one")
         (delivered
            (execute Bot.h Bot.tool ["~/files/a.png"] (Some "one") None None)).
Proof.
  destruct (X13_caption_only_in_content Bot.h Bot.tool ["~/files/a.png"]
              (Some "one") (Some "two") None None) as [Hret [_ Hcontent]].
  - intros cb [= <-]. intros c i t t' f. reflexivity.
  - split; [exact Hret | exact Hcontent].
Defined.

(** ** The order of the paths *)

Lemma Forall2_Permutation {A B : Type} (R : A -> B -> Prop) l l' :
  Permutation l l' ->
  forall m, Forall2 R l m ->
  exists m', Permutation m m' /\ Forall2 R l' m'.
Proof.
  induction 1 as [|x l l' _ IH|x y l|l l' l'' _ IH1 _ IH2]; intros m Hm.
  - inversion Hm; subst. exists []. split; constructor.
  - inversion Hm as [|? b ? m0 Hxb Hrest]; subst.
    destruct (IH m0 Hrest) as [m' [Hperm Hm']].
    exists (b :: m'). split; constructor; assumption.
  - inversion Hm as [|? b ? m0 Hyb Hrest]; subst.
    inversion Hrest as [|? c ? m1 Hxc Hrest']; subst.
    exists (c :: b :: m1). split; [apply perm_swap|].
    repeat constructor; assumption.
  - destruct (IH1 m Hm) as [m' [Hperm Hm']].
    destruct (IH2 m' Hm') as [m'' [Hperm' Hm'']].
    exists m''. split; [eapply perm_trans; eassumption | assumption].
Qed.

(** X14. Whether a batch is delivered does not depend on the order of its
    paths: when a list is delivered, every rearrangement of it is delivered
    too, to the same channel and chat id with the same content, and its
    files are the same files rearranged. *)
Theorem X14_order_of_a_valid_batch
    host self file_paths file_paths' caption req_channel req_chat_id msg :
  Permutation file_paths file_paths' ->
  In msg (delivered
            (execute host self file_paths caption req_channel req_chat_id)) ->
  exists msg',
    delivered
      (execute host self file_paths' caption req_channel req_chat_id)
    = [msg']
    /\ channel msg' = channel msg
    /\ chat_id msg' = chat_id msg
    /\ content msg' = content msg
    /\ Permutation (files msg) (files msg').
Proof.
  intros Hperm Hin.
  destruct (execute_delivered_inv _ _ _ _ _ _ _ Hin)
    as [cb [Ht [Hcb [Hne [Hps [Hmsg _]]]]]].
  destruct (Forall2_Permutation _ _ _ Hperm _ Hps) as [ps' [Hfiles Hps']].
  assert (Hne' : file_paths' <> []).
  { intros ->. apply Permutation_sym, Permutation_nil in Hperm. auto. }
  rewrite (execute_ready _ _ _ _ _ _ _ Ht Hcb Hne').
  rewrite (validate_all_pass _ _ _ [] _ Hps'). cbn [app].
  rewrite dispatch_delivered. eexists. split; [reflexivity|].
  rewrite Hmsg. cbn. repeat split. exact Hfiles.
Qed.

Lemma X14_witness :
  exists msg',
    delivered
      (execute Bot.h Bot.tool ["~/files/b.pdf"; "~/files/a.png"]
         (Some "two") None None)
    = [msg']
    /\ channel msg' = "telegram"
    /\ chat_id msg' = "123"
    /\ content msg' = "two"
    /\ Permutation ["/home/bot/files/a.png"; "/home/bot/files/b.pdf"]
         (files msg').
Proof.
  apply (X14_order_of_a_valid_batch Bot.h Bot.tool
           ["~/files/a.png"; "~/files/b.pdf"]
           ["~/files/b.pdf"; "~/files/a.png"] (Some "two") None None
           {| channel := "telegram"; chat_id := "123"; content := "two";
              files := ["/home/bot/files/a.png"; "/home/bot/files/b.pdf"] |}).
  - apply perm_swap.
  - cbn. left. reflexivity.
Defined.
